(** * HoneyHawk: the detection-and-alerting pipeline

    A shallow embedding of [alerts/logger.py], [monitor/file_watcher.py] and
    [monitor/network_monitor.py], and the properties of the alert store, the
    file-event classifier, the honeypot accept loop and the detectors'
    [stop].

    Conventions of the embedding:
    - Python numbers (the [float] of [time.time()], the [int] of [hours]) are
      exact rationals and integers; the rounding of float arithmetic is not
      represented. Where a property rests on the value of [time.time() -
      hours * 3600] it is stated for the readings and windows on which that
      subtraction is exact ([exact_cutoff]).
    - A parsed JSON document is a [json] tree; a Python [dict] is an
      association list in insertion order.
    - Python's [json] module is outside the repository. A line of a log is
      represented by what [json.loads(line.strip())] makes of it: a JSON
      document, text that raises [JSONDecodeError], or text that raises
      another exception; [json.dumps(entry) + '\n'] is the line that parses
      back to [entry]. The bytes of a log are taken to decode in the encoding
      the file is read in, as every line the logger writes does.
    - Everything decided outside the code (the clock, whether a write or a
      notification fails, what a socket does, the functions of Python's
      library that format paths and times and upper-case a string) is read
      from an [env].
    - The console takes every line that is printed, except in the writers
      named [_on], which are given the exception each line raises. *)

From Stdlib Require Import String Ascii List Bool ZArith QArith Qpower DecimalString Lia Lqa.
Import ListNotations.

Set Warnings "-register-all".

Local Open Scope string_scope.
Local Open Scope list_scope.

(** ** Python values and exceptions *)

Inductive json : Type :=
| JNull
| JBool (b : bool)
| JNum (q : Q)
| JStr (s : string)
| JList (l : list json)
| JDict (d : list (string * json)).

Inductive exn : Type :=
| AttributeError (msg : string)
| TypeError (msg : string)
| RuntimeError (msg : string)
| OSError (msg : string)
| ValueError (msg : string)
| SocketTimeout.

(** [str(e)], as interpolated by [f"...{e}"]. *)
Definition exn_str (e : exn) : string :=
  match e with
  | AttributeError m | TypeError m | RuntimeError m | OSError m | ValueError m => m
  | SocketTimeout => "timed out"
  end.

Inductive result (A : Type) : Type :=
| Ok (a : A)
| Raise (e : exn).
Arguments Ok {A} a.
Arguments Raise {A} e.

Definition rbind {A B} (c : result A) (k : A -> result B) : result B :=
  match c with
  | Ok a => k a
  | Raise e => Raise e
  end.

Declare Scope res_scope.
Delimit Scope res_scope with res.
Notation "x <- c ;; k" := (rbind c (fun x => k))
  (at level 61, c at next level, right associativity) : res_scope.

(** [d.get(key, default)] on a dict. *)
Fixpoint dict_get (d : list (string * json)) (key : string) (default : json) : json :=
  match d with
  | [] => default
  | (k, v) :: d' => if String.eqb k key then v else dict_get d' key default
  end.

(** [v.get(key, default)] on whatever [json.loads] returned: only a dict has
    the method. *)
Definition py_get (v : json) (key : string) (default : json) : result json :=
  match v with
  | JDict d => Ok (dict_get d key default)
  | _ => Raise (AttributeError "object has no attribute 'get'")
  end.

(** The number a JSON value is in a comparison; [True] and [False] are the
    integers 1 and 0. *)
Definition as_number (v : json) : option Q :=
  match v with
  | JNum q => Some q
  | JBool true => Some 1%Q
  | JBool false => Some 0%Q
  | _ => None
  end.

Definition Qgtb (a b : Q) : bool := negb (Qle_bool a b).

(** [a > b]. Numbers compare by value and strings lexicographically; every
    other pairing met by the logger raises [TypeError]. (Python also orders
    two lists; no scan reaches that case, because each record's epoch is
    first compared with a float.) *)
Definition py_gt (a b : json) : result bool :=
  match as_number a, as_number b with
  | Some x, Some y => Ok (Qgtb x y)
  | _, _ =>
      match a, b with
      | JStr s, JStr t => Ok (String.ltb t s)
      | _, _ => Raise (TypeError "'>' not supported between instances")
      end
  end.

(** Upper-casing of ASCII text: the letters [a] to [z] are raised, every
    other byte is left as it is. On text that is ASCII throughout this is
    what [str.upper] computes; it is the [str_upper] of the environments of
    the examples. *)
Definition upper_ascii (c : ascii) : ascii :=
  let n := nat_of_ascii c in
  if (97 <=? n)%nat && (n <=? 122)%nat then ascii_of_nat (n - 32) else c.

Fixpoint upper (s : string) : string :=
  match s with
  | EmptyString => EmptyString
  | String c s' => String (upper_ascii c) (upper s')
  end.

(** [v.upper()]: only a string has the method, and [to_upper] is what it
    computes there. *)
Definition py_upper (to_upper : string -> string) (v : json) : result string :=
  match v with
  | JStr s => Ok (to_upper s)
  | _ => Raise (AttributeError "object has no attribute 'upper'")
  end.

(** Truthiness of a value, as in [details or {}]. *)
Definition py_truthy (v : json) : bool :=
  match v with
  | JNull => false
  | JBool b => b
  | JNum q => negb (Qeq_bool q 0)
  | JStr EmptyString => false
  | JStr _ => true
  | JList [] => false
  | JList _ => true
  | JDict [] => false
  | JDict _ => true
  end.

(** Truthiness of a [str] argument, as in [if alert.get('details'):]. *)
Definition str_truthy (s : string) : bool :=
  match s with
  | EmptyString => false
  | _ => true
  end.

(** [s * n] for a one-character string. *)
Fixpoint repeat_char (c : ascii) (n : nat) : string :=
  match n with
  | O => EmptyString
  | S n' => String c (repeat_char c n')
  end.

(** [str(n)] for an [int]. *)
Definition string_of_Z (n : Z) : string := NilZero.string_of_int (Z.to_int n).

(** [needle in s]. *)
Definition contains (needle s : string) : bool :=
  match index 0 needle s with
  | Some _ => true
  | None => false
  end.

(** [x in xs] for a list of strings. *)
Definition in_strings (x : string) (xs : list string) : bool :=
  existsb (String.eqb x) xs.

Definition nl : string := String (ascii_of_nat 10) EmptyString.
Definition cr : string := String (ascii_of_nat 13) EmptyString.
Definition dquote : string := String (ascii_of_nat 34) EmptyString.
Definition squote : string := String (ascii_of_nat 39) EmptyString.

(** ** The environment and the world *)

Inductive logfile : Type := AlertsLog | ActivityLog | ErrorLog.

Record sysinfo : Type := mkSysinfo {
  si_hostname : string;
  si_os : string;
  si_user : string;
  si_platform : string;
  si_error : option string
}.

(** What one call is given from outside. [clock_iso k], [clock_epoch k] and
    [clock_strftime k] are what the [k]-th reading of the clock during the
    call returns, as [datetime.now().isoformat()], as [time.time()] and as
    [datetime.now().strftime('%Y-%m-%d %H:%M:%S')]. [write_exc f] is the
    exception that appending to log [f] raises, [export_exc] the one that
    writing the export file raises. [strftime_local t] is
    [time.strftime('%Y-%m-%d %H:%M:%S', time.localtime(t))], [path_name p]
    is [Path(p).name], [path_str p] is [str(Path(p))] and [str_upper s] is
    [s.upper()], the upper-casing of Python's [str] with its Unicode case
    mappings. *)
Record env : Type := mkEnv {
  logs_dir : string;
  clock_iso : nat -> string;
  clock_epoch : nat -> Q;
  clock_strftime : nat -> string;
  write_exc : logfile -> option exn;
  export_exc : option exn;
  platform_system : result string;
  os_system : string -> result Z;
  system_info_probe : result sysinfo;
  strftime_local : Q -> string;
  path_name : string -> string;
  path_str : string -> string;
  str_upper : string -> string
}.

(** One line of a log file, by what [json.loads(line.strip())] does with it:
    it returns a document; or it raises [JSONDecodeError]; or it raises
    another exception ([RecursionError], which is a [RuntimeError], on a
    document nested deeper than the interpreter allows; [ValueError] on an
    integer of more digits than the interpreter converts). *)
Inductive line : Type :=
| Rendered (document : json)
| Garbage (text : string)
| Unreadable (x : exn).

(** [json.dumps(entry) + '\n']. *)
Definition json_dumps_nl (entry : json) : line := Rendered entry.

(** [json.loads(line.strip())]; [Ok None] stands for [JSONDecodeError], the
    one exception the readers catch. *)
Definition json_loads_strip (l : line) : result (option json) :=
  match l with
  | Rendered document => Ok (Some document)
  | Garbage _ => Ok None
  | Unreadable x => Raise x
  end.

(** What reaches a client of the honeypot, and how long the thread sleeps. *)
Inductive net_event : Type :=
| NetSend (host : string) (port : Z) (data : string)
| NetSleep (seconds : Z)
| NetClose (host : string) (port : Z)
| NetCloseListener.

(** A file is [None] while it does not exist. *)
Record world : Type := mkWorld {
  alerts_log : option (list line);
  activity_log : option (list line);
  error_log : option (list line);
  exports : list (string * json);
  console : list string;
  shell : list string;
  net : list net_event
}.

Definition log_of (f : logfile) (w : world) : option (list line) :=
  match f with
  | AlertsLog => alerts_log w
  | ActivityLog => activity_log w
  | ErrorLog => error_log w
  end.

Definition set_log (f : logfile) (c : option (list line)) (w : world) : world :=
  match f with
  | AlertsLog =>
      mkWorld c (activity_log w) (error_log w) (exports w) (console w) (shell w) (net w)
  | ActivityLog =>
      mkWorld (alerts_log w) c (error_log w) (exports w) (console w) (shell w) (net w)
  | ErrorLog =>
      mkWorld (alerts_log w) (activity_log w) c (exports w) (console w) (shell w) (net w)
  end.

Definition set_exports (x : list (string * json)) (w : world) : world :=
  mkWorld (alerts_log w) (activity_log w) (error_log w) x (console w) (shell w) (net w).

Definition set_console (c : list string) (w : world) : world :=
  mkWorld (alerts_log w) (activity_log w) (error_log w) (exports w) c (shell w) (net w).

Definition set_shell (c : list string) (w : world) : world :=
  mkWorld (alerts_log w) (activity_log w) (error_log w) (exports w) (console w) c (net w).

Definition set_net (c : list net_event) (w : world) : world :=
  mkWorld (alerts_log w) (activity_log w) (error_log w) (exports w) (console w) (shell w) c.

(** [str(self.logs_dir / name)]. *)
Definition log_path (e : env) (f : logfile) : string :=
  match f with
  | AlertsLog => logs_dir e ++ "/alerts.log"
  | ActivityLog => logs_dir e ++ "/activity.log"
  | ErrorLog => logs_dir e ++ "/errors.log"
  end.

(** The lines of a log, [[]] for a file that does not exist. *)
Definition lines_of (f : logfile) (w : world) : list line :=
  match log_of f w with
  | Some ls => ls
  | None => []
  end.

(** ** The monad of a call: environment, clock readings so far, world *)

Definition M (A : Type) : Type := env -> nat -> world -> result A * nat * world.

Definition ret {A} (a : A) : M A := fun _ n w => (Ok a, n, w).

Definition bind {A B} (c : M A) (k : A -> M B) : M B :=
  fun e n w =>
    match c e n w with
    | (Ok a, n', w') => k a e n' w'
    | (Raise x, n', w') => (Raise x, n', w')
    end.

Definition raise {A} (x : exn) : M A := fun _ n w => (Raise x, n, w).

(** [try: c  except Exception as e: h e]. *)
Definition try_except {A} (c : M A) (h : exn -> M A) : M A :=
  fun e n w =>
    match c e n w with
    | (Ok a, n', w') => (Ok a, n', w')
    | (Raise x, n', w') => h x e n' w'
    end.

Definition lift {A} (r : result A) : M A := fun _ n w => (r, n, w).

Definition ask {A} (f : env -> A) : M A := fun e n w => (Ok (f e), n, w).

(** A top-level call: the clock readings are counted from 0. *)
Definition run {A} (e : env) (c : M A) (w : world) : result A * world :=
  match c e O w with
  | (r, _, w') => (r, w')
  end.

Declare Scope py_scope.
Delimit Scope py_scope with py.
Notation "x <- c ;; k" := (bind c (fun x => k))
  (at level 61, c at next level, right associativity) : py_scope.
Notation "c ;; k" := (bind c (fun _ => k))
  (at level 61, right associativity) : py_scope.

Local Open Scope py_scope.

Definition time_time : M Q := fun e n w => (Ok (clock_epoch e n), S n, w).

Definition datetime_now_isoformat : M string :=
  fun e n w => (Ok (clock_iso e n), S n, w).

Definition datetime_now_strftime : M string :=
  fun e n w => (Ok (clock_strftime e n), S n, w).

Definition print (s : string) : M unit :=
  fun _ n w => (Ok tt, n, set_console (console w ++ [s]) w).

(** [with open(log_file, 'a') as f: f.write(l)]: creates the file when it is
    missing. [write_exc e f] is what [open] raises, before anything is
    written; a write that fails after the file is open, which could leave a
    line cut short, is not represented. *)
Definition file_append (f : logfile) (l : line) : M unit :=
  fun e n w =>
    match write_exc e f with
    | Some x => (Raise x, n, w)
    | None => (Ok tt, n, set_log f (Some (lines_of f w ++ [l])) w)
    end.

(** ** AlertLogger: the writers *)

Definition _write_to_log (log_file : logfile) (entry : json) : M unit :=
  try_except
    (file_append log_file (json_dumps_nl entry))
    (fun x =>
       path <- ask (fun e => log_path e log_file) ;;
       print ("Error writing to log " ++ path ++ ": " ++ exn_str x)).

Definition info_entry (timestamp : string) (message : string) (details : json) (epoch : Q) : json :=
  JDict [("timestamp", JStr timestamp); ("type", JStr "INFO");
         ("message", JStr message); ("details", details); ("epoch", JNum epoch)].

Definition error_entry (timestamp : string) (message : string) (error_details : string) (epoch : Q) : json :=
  JDict [("timestamp", JStr timestamp); ("type", JStr "ERROR");
         ("message", JStr message); ("details", JStr error_details); ("epoch", JNum epoch)].

Definition alert_entry (timestamp : string) (severity message details : string) (epoch : Q) : json :=
  JDict [("timestamp", JStr timestamp); ("severity", JStr severity);
         ("type", JStr "SECURITY_ALERT"); ("message", JStr message);
         ("details", JStr details); ("epoch", JNum epoch)].

(** [details or {}]: a missing or falsy argument gives [{}]. *)
Definition details_or_empty (details : option json) : json :=
  match details with
  | None => JDict []
  | Some d => if py_truthy d then d else JDict []
  end.

Definition log_info (message : string) (details : option json) : M unit :=
  timestamp <- datetime_now_isoformat ;;
  epoch <- time_time ;;
  _write_to_log ActivityLog (info_entry timestamp message (details_or_empty details) epoch).

Definition log_error (message : string) (error_details : string) : M unit :=
  timestamp <- datetime_now_isoformat ;;
  epoch <- time_time ;;
  _write_to_log ErrorLog (error_entry timestamp message error_details epoch).

Definition notification_title : string := "HoneyHawk Security Alert".

Definition darwin_command (message : string) : string :=
  "osascript -e " ++ squote ++ "display notification " ++ dquote ++ message ++ dquote
  ++ " with title " ++ dquote ++ notification_title ++ dquote ++ squote.

Definition linux_command (message : string) : string :=
  "notify-send " ++ dquote ++ notification_title ++ dquote ++ " " ++ dquote ++ message ++ dquote.

(** [os.system(cmd)]: the command is handed to the shell; the call may raise. *)
Definition py_os_system (cmd : string) : M unit :=
  fun e n w =>
    let w' := set_shell (shell w ++ [cmd]) w in
    match os_system e cmd with
    | Ok _ => (Ok tt, n, w')
    | Raise x => (Raise x, n, w')
    end.

Definition _send_system_notification (message : string) : M unit :=
  try_except
    (system <- (fun e n w => (platform_system e, n, w)) ;;
     if String.eqb system "Darwin" then py_os_system (darwin_command message)
     else if String.eqb system "Linux" then py_os_system (linux_command message)
     else ret tt)
    (fun x => log_error ("Failed to send system notification: " ++ exn_str x) "").

Definition rule60 : string := repeat_char "=" 60.

Definition _send_high_priority_alert (timestamp message details : string) : M unit :=
  print (nl ++ rule60) ;;
  print "[!] HIGH PRIORITY ALERT [!]" ;;
  print ("Time: " ++ timestamp) ;;
  print ("Message: " ++ message) ;;
  (if str_truthy details then print ("Details: " ++ details) else ret tt) ;;
  print (rule60 ++ nl) ;;
  _send_system_notification message.

Definition log_alert (severity message details : string) : M unit :=
  timestamp <- datetime_now_isoformat ;;
  epoch <- time_time ;;
  let entry := alert_entry timestamp severity message details epoch in
  _write_to_log AlertsLog entry ;;
  _write_to_log ActivityLog entry ;;
  if String.eqb severity "HIGH"
  then _send_high_priority_alert timestamp message details
  else ret tt.

(** *** The writers on a console that can fail

    [print] raises when the console cannot take the text: [OSError] on a
    broken pipe, [UnicodeEncodeError] (a [ValueError]) on a character the
    encoding of the console does not have, and then prints nothing of it.
    [stdout_exc s] is the exception that printing [s] raises. The
    functions below are the writers above, line by line, with [print_on
    stdout_exc] for [print]; on a console that takes every line they are the
    writers above. *)
Definition print_on (stdout_exc : string -> option exn) (s : string) : M unit :=
  fun e n w =>
    match stdout_exc s with
    | Some x => (Raise x, n, w)
    | None => print s e n w
    end.

Definition _write_to_log_on (stdout_exc : string -> option exn) (log_file : logfile)
    (entry : json) : M unit :=
  try_except
    (file_append log_file (json_dumps_nl entry))
    (fun x =>
       path <- ask (fun e => log_path e log_file) ;;
       print_on stdout_exc ("Error writing to log " ++ path ++ ": " ++ exn_str x)).

Definition log_error_on (stdout_exc : string -> option exn) (message : string)
    (error_details : string) : M unit :=
  timestamp <- datetime_now_isoformat ;;
  epoch <- time_time ;;
  _write_to_log_on stdout_exc ErrorLog (error_entry timestamp message error_details epoch).

Definition _send_system_notification_on (stdout_exc : string -> option exn)
    (message : string) : M unit :=
  try_except
    (system <- (fun e n w => (platform_system e, n, w)) ;;
     if String.eqb system "Darwin" then py_os_system (darwin_command message)
     else if String.eqb system "Linux" then py_os_system (linux_command message)
     else ret tt)
    (fun x =>
       log_error_on stdout_exc ("Failed to send system notification: " ++ exn_str x) "").

Definition _send_high_priority_alert_on (stdout_exc : string -> option exn)
    (timestamp message details : string) : M unit :=
  print_on stdout_exc (nl ++ rule60) ;;
  print_on stdout_exc "[!] HIGH PRIORITY ALERT [!]" ;;
  print_on stdout_exc ("Time: " ++ timestamp) ;;
  print_on stdout_exc ("Message: " ++ message) ;;
  (if str_truthy details then print_on stdout_exc ("Details: " ++ details) else ret tt) ;;
  print_on stdout_exc (rule60 ++ nl) ;;
  _send_system_notification_on stdout_exc message.

Definition log_alert_on (stdout_exc : string -> option exn)
    (severity message details : string) : M unit :=
  timestamp <- datetime_now_isoformat ;;
  epoch <- time_time ;;
  let entry := alert_entry timestamp severity message details epoch in
  _write_to_log_on stdout_exc AlertsLog entry ;;
  _write_to_log_on stdout_exc ActivityLog entry ;;
  if String.eqb severity "HIGH"
  then _send_high_priority_alert_on stdout_exc timestamp message details
  else ret tt.

(** [log_file.touch()] for a file that does not exist. *)
Definition touch (f : logfile) : M unit :=
  fun _ n w =>
    (Ok tt, n, match log_of f w with
               | None => set_log f (Some []) w
               | Some _ => w
               end).

(** [AlertLogger.__init__], once the directory exists. *)
Definition AlertLogger_init : M unit :=
  touch AlertsLog ;;
  touch ActivityLog ;;
  touch ErrorLog ;;
  log_info "AlertLogger initialized" None.

(** ** AlertLogger: the readers *)

(** [for line in f: try: ... except json.JSONDecodeError: continue], with the
    loop's variables in [acc]. A line that raises [JSONDecodeError] leaves
    them as they are; any other exception, of [json.loads] or of the body,
    leaves the loop and the function. *)
Fixpoint for_lines {A} (body : A -> json -> result A) (lines : list line) (acc : A) : result A :=
  match lines with
  | [] => Ok acc
  | l :: rest =>
      match json_loads_strip l with
      | Raise x => Raise x
      | Ok None => for_lines body rest acc
      | Ok (Some record) =>
          match body acc record with
          | Ok acc' => for_lines body rest acc'
          | Raise x => Raise x
          end
      end
  end.

(** [if record.get('epoch', 0) > cutoff_time: acc.append(record)]. *)
Definition keep_recent (cutoff_time : Q) (acc : list json) (record : json) : result (list json) :=
  (epoch <- py_get record "epoch" (JNum 0) ;;
   recent <- py_gt epoch (JNum cutoff_time) ;;
   Ok (if recent then acc ++ [record] else acc))%res.

(** [with open(log, 'r') as f: ...] inside [try ... except FileNotFoundError:
    pass]: a missing file is scanned as an empty one. *)
Definition scan_log {A} (f : logfile) (body : A -> json -> result A) (acc : A) : M A :=
  fun _ n w => (for_lines body (lines_of f w) acc, n, w).

(** [q] is a value of Python's [float], an IEEE 754 binary64 number: a
    mantissa of at most 53 bits at an exponent in range. *)
Definition binary64 (q : Q) : Prop :=
  exists m k : Z,
    (Z.abs m < 2 ^ 53)%Z /\ (-1074 <= k <= 971)%Z /\ q == inject_Z m * 2 ^ k.

(** [time.time() - (hours * 3600)]. The product is an [int]; the subtraction
    converts it to the nearest [float] ([OverflowError] when there is none)
    and rounds the difference to the nearest [float]. [cutoff] is the exact
    difference: it is what the code computes whenever nothing has to be
    rounded, that is when [exact_cutoff now hours] holds. *)
Definition cutoff (now : Q) (hours : Z) : Q := now - inject_Z (hours * 3600).

(** The clock reading, the seconds of the window and their difference are
    all floats: the conversion and the subtraction are then exact. *)
Definition exact_cutoff (now : Q) (hours : Z) : Prop :=
  binary64 now
  /\ binary64 (inject_Z (hours * 3600))
  /\ binary64 (now - inject_Z (hours * 3600)).

Definition get_recent_alerts (hours : Z) : M (list json) :=
  now <- time_time ;;
  let cutoff_time := cutoff now hours in
  scan_log AlertsLog (keep_recent cutoff_time) [].

Record summary : Type := mkSummary {
  total_alerts : Z;
  high_severity : Z;
  medium_severity : Z;
  low_severity : Z;
  last_24h : Z;
  last_alert : option json
}.

Definition empty_summary : summary := mkSummary 0 0 0 0 0 None.

Definition count_severity (severity : string) (s : summary) : summary :=
  if String.eqb severity "HIGH" then
    mkSummary (total_alerts s) (high_severity s + 1) (medium_severity s)
              (low_severity s) (last_24h s) (last_alert s)
  else if String.eqb severity "MEDIUM" then
    mkSummary (total_alerts s) (high_severity s) (medium_severity s + 1)
              (low_severity s) (last_24h s) (last_alert s)
  else if String.eqb severity "LOW" then
    mkSummary (total_alerts s) (high_severity s) (medium_severity s)
              (low_severity s + 1) (last_24h s) (last_alert s)
  else s.

(** The test of [if summary["last_alert"] is None or alert.get('epoch', 0) >
    summary["last_alert"].get('epoch', 0)]. *)
Definition is_more_recent (alert : json) (last : option json) : result bool :=
  match last with
  | None => Ok true
  | Some l =>
      (epoch <- py_get alert "epoch" (JNum 0) ;;
       last_epoch <- py_get l "epoch" (JNum 0) ;;
       py_gt epoch last_epoch)%res
  end.

(** The body of the loop of [get_alert_summary]. *)
Definition summarize (to_upper : string -> string) (cutoff_24h : Q) (s : summary)
    (alert : json) : result summary :=
  (let s1 := mkSummary (total_alerts s + 1) (high_severity s) (medium_severity s)
                       (low_severity s) (last_24h s) (last_alert s) in
   sev <- py_get alert "severity" (JStr "") ;;
   severity <- py_upper to_upper sev ;;
   let s2 := count_severity severity s1 in
   epoch <- py_get alert "epoch" (JNum 0) ;;
   recent <- py_gt epoch (JNum cutoff_24h) ;;
   let s3 := if recent
             then mkSummary (total_alerts s2) (high_severity s2) (medium_severity s2)
                            (low_severity s2) (last_24h s2 + 1) (last_alert s2)
             else s2 in
   newer <- is_more_recent alert (last_alert s3) ;;
   Ok (if newer
       then mkSummary (total_alerts s3) (high_severity s3) (medium_severity s3)
                      (low_severity s3) (last_24h s3) (Some alert)
       else s3))%res.

Definition get_alert_summary : M summary :=
  now <- time_time ;;
  let cutoff_24h := cutoff now 24 in
  to_upper <- ask str_upper ;;
  scan_log AlertsLog (summarize to_upper cutoff_24h) empty_summary.

Definition exported_data (export_timestamp : string) (hours : Z)
    (alerts activities errors : list json) : json :=
  JDict [("export_timestamp", JStr export_timestamp);
         ("hours_exported", JNum (inject_Z hours));
         ("alerts", JList alerts); ("activities", JList activities);
         ("errors", JList errors)].

(** [with open(output_file, 'w') as f: json.dump(doc, f, indent=2)], outside
    any [try]. [export_exc e] is what [open] raises; a failure of [json.dump]
    on the open file, which would leave it cut short, is not represented, so
    [exports] says what is written by the calls that return. *)
Definition file_write_json (output_file : string) (doc : json) : M unit :=
  fun e n w =>
    match export_exc e with
    | Some x => (Raise x, n, w)
    | None =>
        (Ok tt, n, set_exports ((output_file, doc) :: exports w) w)
    end.

Definition export_logs (output_file : string) (hours : Z) : M unit :=
  now <- time_time ;;
  let cutoff_time := cutoff now hours in
  export_timestamp <- datetime_now_isoformat ;;
  alerts <- scan_log AlertsLog (keep_recent cutoff_time) [] ;;
  activities <- scan_log ActivityLog (keep_recent cutoff_time) [] ;;
  file_write_json output_file (exported_data export_timestamp hours alerts activities []) ;;
  log_info ("Exported logs to " ++ output_file) None.

(** ** CanaryFileHandler *)

Record fs_event : Type := mkEvent {
  is_directory : bool;
  event_type : string;
  src_path : string;
  dest_path : string
}.

Record event_details : Type := mkDetails {
  ed_event_type : string;
  ed_file_path : string;
  ed_timestamp : Q;
  ed_system_info : sysinfo
}.

Definition _get_system_info : M sysinfo :=
  fun e n w =>
    match system_info_probe e with
    | Ok i => (Ok i, n, w)
    | Raise x =>
        (Ok (mkSysinfo "unknown" "unknown" "unknown" "unknown" (Some (exn_str x))), n, w)
    end.

Definition access_message : string := "CANARY TRIGGERED - File Access Detected!".

Definition access_details (e : env) (d : event_details) : string :=
  nl ++ "File: " ++ path_name e (ed_file_path d) ++ nl
  ++ "Full Path: " ++ path_str e (ed_file_path d) ++ nl
  ++ "Event: " ++ ed_event_type d ++ nl
  ++ "Time: " ++ strftime_local e (ed_timestamp d) ++ nl
  ++ "System: " ++ si_hostname (ed_system_info d) ++ nl
  ++ "OS: " ++ si_os (ed_system_info d) ++ nl
  ++ "User: " ++ si_user (ed_system_info d) ++ nl
  ++ "        ".

Definition _handle_file_access (d : event_details) : M unit :=
  let alert_message := access_message in
  alert_details <- ask (fun e => access_details e d) ;;
  log_alert "HIGH" alert_message alert_details ;;
  print (nl ++ "[!] ALERT: " ++ alert_message) ;;
  print alert_details.

Definition modification_message (d : event_details) : string :=
  "Canary File Modified - " ++ ed_event_type d.

Definition modification_details (e : env) (d : event_details) : string :=
  nl ++ "File: "
  ++ (if negb (contains "->" (path_str e (ed_file_path d)))
      then path_name e (ed_file_path d) else path_str e (ed_file_path d)) ++ nl
  ++ "Event: " ++ ed_event_type d ++ nl
  ++ "Time: " ++ strftime_local e (ed_timestamp d) ++ nl
  ++ "System: " ++ si_hostname (ed_system_info d) ++ nl
  ++ "        ".

Definition _handle_file_modification (d : event_details) : M unit :=
  let alert_message := modification_message d in
  alert_details <- ask (fun e => modification_details e d) ;;
  log_alert "MEDIUM" alert_message alert_details ;;
  print (nl ++ "[!] WARNING: " ++ alert_message).

Definition on_any_event (event : fs_event) : M unit :=
  if is_directory event then ret tt
  else
    system_info <- _get_system_info ;;
    timestamp <- time_time ;;
    let d := mkDetails (event_type event) (src_path event) timestamp system_info in
    if in_strings (event_type event) ["opened"; "accessed"]
    then _handle_file_access d
    else if in_strings (event_type event) ["modified"; "moved"; "deleted"]
    then _handle_file_modification d
    else ret tt.

(** The handlers of one event type build the dict in source order: the
    clock is read before the system is probed. *)
Definition on_typed (handle : event_details -> M unit) (event_type file_path : string)
    (event : fs_event) : M unit :=
  if negb (is_directory event)
  then
    timestamp <- time_time ;;
    system_info <- _get_system_info ;;
    handle (mkDetails event_type file_path timestamp system_info)
  else ret tt.

Definition on_opened (event : fs_event) : M unit :=
  on_typed _handle_file_access "opened" (src_path event) event.

Definition on_modified (event : fs_event) : M unit :=
  on_typed _handle_file_modification "modified" (src_path event) event.

Definition on_moved (event : fs_event) : M unit :=
  on_typed _handle_file_modification "moved"
           (src_path event ++ " -> " ++ dest_path event) event.

Definition on_deleted (event : fs_event) : M unit :=
  on_typed _handle_file_modification "deleted" (src_path event) event.

(** ** FileWatcher *)

(** The watchdog observer is a thread: it starts once, and joining it before
    it has started raises. *)
Inductive observer_state : Type := ObserverNew | ObserverStarted | ObserverStopped.

Record file_watcher : Type := mkFileWatcher {
  watch_directory : string;
  fw_observer : observer_state;
  fw_is_running : bool
}.

Definition FileWatcher_init (watch_directory : string) : file_watcher :=
  mkFileWatcher watch_directory ObserverNew false.

Definition observer_start (o : observer_state) : M observer_state :=
  match o with
  | ObserverNew => ret ObserverStarted
  | _ => raise (RuntimeError "threads can only be started once")
  end.

Definition observer_stop (o : observer_state) : observer_state :=
  match o with
  | ObserverStarted => ObserverStopped
  | _ => o
  end.

Definition observer_join (o : observer_state) : M unit :=
  match o with
  | ObserverNew => raise (RuntimeError "cannot join thread before it is started")
  | _ => ret tt
  end.

Definition observer_is_alive (o : observer_state) : bool :=
  match o with
  | ObserverStarted => true
  | _ => false
  end.

(** [FileWatcher.start]; creating the watched directory and scheduling the
    handler leave the modelled state as it is. *)
Definition FileWatcher_start (self : file_watcher) : M file_watcher :=
  o <- observer_start (fw_observer self) ;;
  let self1 := mkFileWatcher (watch_directory self) o true in
  log_info ("File watcher started monitoring: " ++ watch_directory self) None ;;
  print ("File watcher active on: " ++ watch_directory self) ;;
  ret self1.

Definition FileWatcher_stop (self : file_watcher) : M file_watcher :=
  if fw_is_running self
  then
    let o := observer_stop (fw_observer self) in
    observer_join o ;;
    let self1 := mkFileWatcher (watch_directory self) o false in
    log_info "File watcher stopped" None ;;
    ret self1
  else ret self.

Definition FileWatcher_is_alive (self : file_watcher) : bool :=
  if fw_is_running self then observer_is_alive (fw_observer self) else false.

(** ** NetworkMonitor *)

(** The two daemon threads [start] creates. *)
Inductive thread : Type := SshHoneypotThread | DnsMonitorThread.

Record network_monitor : Type := mkNetworkMonitor {
  nm_is_running : bool;
  nm_monitors : list thread
}.


(** [hasattr(monitor, 'stop')]: a [threading.Thread] has no such method. *)
Definition hasattr_stop (monitor : thread) : bool := false.

(** [monitor.stop()], a call of a method the object does not have. *)
Definition monitor_stop (monitor : thread) : M unit :=
  raise (AttributeError "'Thread' object has no attribute 'stop'").

Fixpoint for_each {A} (body : A -> M unit) (xs : list A) : M unit :=
  match xs with
  | [] => ret tt
  | x :: rest => body x ;; for_each body rest
  end.


Definition NetworkMonitor_stop (self : network_monitor) : M network_monitor :=
  let self1 := mkNetworkMonitor false (nm_monitors self) in
  for_each (fun monitor =>
              if hasattr_stop monitor then monitor_stop monitor else ret tt)
           (nm_monitors self1) ;;
  log_info "Network monitoring stopped" None ;;
  ret self1.

(** ** The honeypot's accept loop *)

(** What [sock.accept()] returns or raises, and what the client socket then
    does on [send] and [close]. *)
Inductive accept_result : Type :=
| Accepted (host : string) (port : Z) (send_exc close_exc : option exn)
| AcceptRaises (x : exn).

(** One turn of [while self.is_running]: the flag as the loop test reads it,
    the environment of the turn, the outcome of [accept], and the flag as the
    handler of an unexpected exception reads it. *)
Record turn : Type := mkTurn {
  turn_is_running : bool;
  turn_env : env;
  turn_accept : accept_result;
  turn_is_running_on_error : bool
}.

Inductive loop_ctl : Type := Continue | Break.

Definition banner : string := "SSH-2.0-OpenSSH_8.9" ++ cr ++ nl.

Definition client_send (host : string) (port : Z) (data : string) (exc : option exn) : M unit :=
  fun _ n w =>
    match exc with
    | Some x => (Raise x, n, w)
    | None => (Ok tt, n, set_net (net w ++ [NetSend host port data]) w)
    end.

Definition time_sleep (seconds : Z) : M unit :=
  fun _ n w => (Ok tt, n, set_net (net w ++ [NetSleep seconds]) w).

Definition client_close (host : string) (port : Z) (exc : option exn) : M unit :=
  fun _ n w =>
    match exc with
    | Some x => (Raise x, n, w)
    | None => (Ok tt, n, set_net (net w ++ [NetClose host port]) w)
    end.

Definition ssh_message : string := "CANARY TRIGGERED - SSH Connection Attempt!".

Definition ssh_details (host : string) (port : Z) (now : string) : string :=
  nl ++ "Service: Fake SSH Server" ++ nl
  ++ "Client IP: " ++ host ++ nl
  ++ "Client Port: " ++ string_of_Z port ++ nl
  ++ "Time: " ++ now ++ nl
  ++ "Likely Cause: Someone tried to use the fake SSH key" ++ nl
  ++ "                        ".

(** The statements after [sock.accept()] has returned. *)
Definition handle_connection (host : string) (port : Z) (send_exc close_exc : option exn) : M unit :=
  let alert_message := ssh_message in
  now <- datetime_now_strftime ;;
  let alert_details := ssh_details host port now in
  log_alert "HIGH" alert_message alert_details ;;
  print (nl ++ "[!] SSH CANARY TRIGGERED from " ++ host ++ ":" ++ string_of_Z port) ;;
  try_except
    (client_send host port banner send_exc ;;
     time_sleep 2 ;;
     client_close host port close_exc)
    (fun _ => ret tt).

(** The body of the loop, with its two [except] clauses. *)
Definition accept_iteration (t : turn) : M loop_ctl :=
  try_except
    (match turn_accept t with
     | Accepted host port send_exc close_exc =>
         handle_connection host port send_exc close_exc ;; ret Continue
     | AcceptRaises x => raise x
     end)
    (fun x =>
       match x with
       | SocketTimeout => ret Continue
       | _ =>
           (if turn_is_running_on_error t
            then log_error ("SSH honeypot error: " ++ exn_str x) ""
            else ret tt) ;;
           ret Break
       end).

Inductive loop_state : Type :=
| Looping
| Exited
| Unwound (x : exn).

(** The [while] loop over the turns the environment supplies, followed by
    [sock.close()]. [Looping]: the loop is still running after the last
    turn given. *)
Fixpoint accept_loop (turns : list turn) (w : world) : loop_state * world :=
  match turns with
  | [] => (Looping, w)
  | t :: rest =>
      if turn_is_running t
      then
        match run (turn_env t) (accept_iteration t) w with
        | (Ok Continue, w') => accept_loop rest w'
        | (Ok Break, w') => (Exited, set_net (net w' ++ [NetCloseListener]) w')
        | (Raise x, w') => (Unwound x, w')
        end
      else (Exited, set_net (net w ++ [NetCloseListener]) w)
  end.


(** ** The store as a sequence of appended events *)

Inductive event : Type :=
| SecurityAlert (severity message details : string)
| Info (message : string) (details : option json)
| Error (message error_details : string).

Definition append (ev : event) : M unit :=
  match ev with
  | SecurityAlert severity message details => log_alert severity message details
  | Info message details => log_info message details
  | Error message error_details => log_error message error_details
  end.

(** One call after the other, each with the environment it meets. *)
Fixpoint append_all (evs : list (env * event)) (w : world) : world :=
  match evs with
  | [] => w
  | (e, ev) :: rest => append_all rest (snd (run e (append ev) w))
  end.

(** No file yet, nothing printed or sent. *)
Definition fresh_world : world := mkWorld None None None [] [] [] [].

Definition new_store (e : env) : world := snd (run e AlertLogger_init fresh_world).

(** ** What a call leaves behind *)

(** The line a call of [_write_to_log] adds to a log: none when the write
    raises. *)
Definition written (e : env) (f : logfile) (entry : json) : list line :=
  match write_exc e f with
  | None => [json_dumps_nl entry]
  | Some _ => []
  end.

(** What it prints instead when the write raises. *)
Definition write_error_lines (e : env) (f : logfile) : list string :=
  match write_exc e f with
  | None => []
  | Some x => ["Error writing to log " ++ log_path e f ++ ": " ++ exn_str x]%string
  end.

(** The exception the notification step raises, if any. *)
Definition notification_failure (e : env) (message : string) : option exn :=
  match platform_system e with
  | Raise x => Some x
  | Ok system =>
      if String.eqb system "Darwin" then
        match os_system e (darwin_command message) with
        | Raise x => Some x
        | Ok _ => None
        end
      else if String.eqb system "Linux" then
        match os_system e (linux_command message) with
        | Raise x => Some x
        | Ok _ => None
        end
      else None
  end.

(** The commands the notification step hands to the shell. *)
Definition notification_commands (e : env) (message : string) : list string :=
  match platform_system e with
  | Raise _ => []
  | Ok system =>
      if String.eqb system "Darwin" then [darwin_command message]
      else if String.eqb system "Linux" then [linux_command message]
      else []
  end.

(** The ERROR record a failed notification leaves, the clock being at its
    [n]-th reading. *)
Definition notification_error (e : env) (n : nat) (message : string) : list line :=
  match notification_failure e message with
  | Some x =>
      written e ErrorLog
        (error_entry (clock_iso e n)
           ("Failed to send system notification: " ++ exn_str x) "" (clock_epoch e (S n)))
  | None => []
  end.

Definition notification_console (e : env) (message : string) : list string :=
  match notification_failure e message with
  | Some _ => write_error_lines e ErrorLog
  | None => []
  end.

(** The lines the hook prints before it notifies. *)
Definition hook_console (timestamp message details : string) : list string :=
  [(nl ++ rule60)%string; "[!] HIGH PRIORITY ALERT [!]"; ("Time: " ++ timestamp)%string;
   ("Message: " ++ message)%string]
  ++ (if str_truthy details then [("Details: " ++ details)%string] else [])
  ++ [(rule60 ++ nl)%string].

(** The exception of the first of [lines] that the console refuses. *)
Fixpoint first_refused (stdout_exc : string -> option exn) (lines : list string)
    : option exn :=
  match lines with
  | [] => None
  | s :: rest =>
      match stdout_exc s with
      | Some x => Some x
      | None => first_refused stdout_exc rest
      end
  end.

(** The alert a call of [log_alert] builds when the clock is at its [n]-th
    reading. *)
Definition alert_at (e : env) (n : nat) (severity message details : string) : json :=
  alert_entry (clock_iso e n) severity message details (clock_epoch e (S n)).

(** What a scan has to read in a log, in file order: the records that
    parse; nothing for a line that raises [JSONDecodeError]; and [JNull], which
    no scan can read, for a line on which [json.loads] raises another
    exception, so that a log whose records are all well formed has no such
    line. *)
Definition parsed (ls : list line) : list json :=
  flat_map (fun l => match json_loads_strip l with
                     | Ok (Some record) => [record]
                     | Ok None => []
                     | Raise _ => [JNull]
                     end) ls.

(** The epoch a scan reads in a record, [0] when there is none. *)
Definition epoch_of (record : json) : Q :=
  match record with
  | JDict d =>
      match as_number (dict_get d "epoch" (JNum 0)) with
      | Some q => q
      | None => 0
      end
  | _ => 0
  end.

(** The severity a scan reads in a record, upper-cased by [to_upper]. *)
Definition severity_of (to_upper : string -> string) (record : json) : string :=
  match record with
  | JDict d =>
      match dict_get d "severity" (JStr "") with
      | JStr s => to_upper s
      | _ => ""
      end
  | _ => ""
  end.

(** A record every scan can read: a dict whose epoch, if any, is a number and
    whose severity, if any, is a string. *)
Definition well_formed (record : json) : bool :=
  match record with
  | JDict d =>
      match as_number (dict_get d "epoch" (JNum 0)), dict_get d "severity" (JStr "") with
      | Some _, JStr _ => true
      | _, _ => false
      end
  | _ => false
  end.

Definition in_window (now : Q) (hours : Z) (record : json) : bool :=
  Qgtb (epoch_of record) (cutoff now hours).

(** The alert an appended event leaves in the alerts log. *)
Definition stored_alert (ee : env * event) : list json :=
  match ee with
  | (e, SecurityAlert severity message details) =>
      match write_exc e AlertsLog with
      | None => [alert_at e 0 severity message details]
      | Some _ => []
      end
  | _ => []
  end.

Definition stored_alerts (evs : list (env * event)) : list json :=
  flat_map stored_alert evs.

Definition is_security_alert (record : json) : bool :=
  match record with
  | JDict d =>
      match dict_get d "type" JNull with
      | JStr t => String.eqb t "SECURITY_ALERT"
      | _ => false
      end
  | _ => false
  end.

(** What [_get_system_info] returns in an environment. *)
Definition system_info_of (e : env) : sysinfo :=
  match system_info_probe e with
  | Ok i => i
  | Raise x => mkSysinfo "unknown" "unknown" "unknown" "unknown" (Some (exn_str x))
  end.

(** What a client sees of the honeypot, by the exceptions [send] and [close]
    raise on its socket. *)
Definition socket_trace (host : string) (port : Z) (send_exc close_exc : option exn)
    : list net_event :=
  match send_exc with
  | Some _ => []
  | None =>
      NetSend host port banner :: NetSleep 2
      :: match close_exc with
         | Some _ => []
         | None => [NetClose host port]
         end
  end.

(** A watcher's flag never says "running" before the observer has started. *)
Definition fw_consistent (self : file_watcher) : bool :=
  match fw_is_running self, fw_observer self with
  | true, ObserverNew => false
  | _, _ => true
  end.

(** ** What a summary should say of a list of records *)

Definition has_severity (to_upper : string -> string) (name : string) (record : json)
    : bool :=
  String.eqb (severity_of to_upper record) name.

Definition count_where (p : json -> bool) (rs : list json) : Z :=
  Z.of_nat (length (filter p rs)).

(** [r] has the greatest epoch of [rs] and is the first record to have it. *)
Definition first_latest (rs : list json) (r : json) : Prop :=
  exists i,
    nth_error rs i = Some r
    /\ (forall r', In r' rs -> (epoch_of r' <= epoch_of r)%Q)
    /\ (forall j r', (j < i)%nat -> nth_error rs j = Some r' -> (epoch_of r' < epoch_of r)%Q).

(** [r] has the greatest epoch of [rs] and is the last record to have it. *)
Definition last_latest (rs : list json) (r : json) : Prop :=
  exists i,
    nth_error rs i = Some r
    /\ (forall r', In r' rs -> (epoch_of r' <= epoch_of r)%Q)
    /\ (forall j r', (i < j)%nat -> nth_error rs j = Some r' -> (epoch_of r' < epoch_of r)%Q).

(** [s] summarises the records [rs], the 24-hour window starting at [c] and
    severities being upper-cased by [to_upper]. *)
Definition summarises (to_upper : string -> string) (c : Q) (rs : list json)
    (s : summary) : Prop :=
  total_alerts s = Z.of_nat (length rs)
  /\ high_severity s = count_where (has_severity to_upper "HIGH") rs
  /\ medium_severity s = count_where (has_severity to_upper "MEDIUM") rs
  /\ low_severity s = count_where (has_severity to_upper "LOW") rs
  /\ last_24h s = count_where (fun r => Qgtb (epoch_of r) c) rs
  /\ match last_alert s with
     | None => rs = []
     | Some r => first_latest rs r
     end.

Definition bump (b : bool) (n : Z) : Z := if b then (n + 1)%Z else n.

(** ** Concrete environments, events and logs for the examples *)

Definition example_sysinfo : sysinfo :=
  mkSysinfo "decoy-host" "Linux 6.1" "root" "Linux-6.1-x86_64" None.

(** Every write succeeds and the platform has no notification command; the
    clock stands at [t]. *)
Definition env_at (t : Q) : env :=
  mkEnv "logs" (fun _ => "2024-05-01T12:00:00") (fun _ => t)
        (fun _ => "2024-05-01 12:00:00") (fun _ => None) None
        (Ok "Windows") (fun _ => Ok 0%Z) (Ok example_sysinfo)
        (fun _ => "2024-05-01 12:00:00") (fun p => p) (fun p => p) upper.

Definition canary_alert : event :=
  SecurityAlert "HIGH" "CANARY TRIGGERED - File Access Detected!" "File: id_rsa".

(** The record [canary_alert] leaves when appended in [env_at t]. *)
Definition canary_entry (t : Q) : json :=
  alert_entry "2024-05-01T12:00:00" "HIGH" "CANARY TRIGGERED - File Access Detected!"
              "File: id_rsa" t.

(** An alert of a given severity, stamped [t]. *)
Definition severity_record (severity : string) (t : Q) : json :=
  alert_entry "2024-05-01T12:00:00" severity "probe" "" t.

(** A store whose alerts log and activity log hold the lines [ls]. *)
Definition world_of_alerts (ls : list line) : world :=
  mkWorld (Some ls) (Some ls) (Some []) [] [] [] [].

Definition severity_world : world :=
  world_of_alerts
    (map json_dumps_nl
         [severity_record "HIGH" 10; severity_record "HIGH" 20;
          severity_record "MEDIUM" 30; severity_record "LOW" 40;
          severity_record "UNKNOWN" 50]).

Definition lowercase_world : world :=
  world_of_alerts [json_dumps_nl (severity_record "high" 50)].

(** A record whose severity is JSON [null]. *)
Definition null_severity_record : json :=
  JDict [("timestamp", JStr "2024-05-01T12:00:00"); ("severity", JNull);
         ("type", JStr "SECURITY_ALERT"); ("message", JStr "probe");
         ("details", JStr ""); ("epoch", JNum 50)].

Definition tie_first : json := alert_entry "2024-05-01T12:00:00" "HIGH" "first" "" 70.
Definition tie_second : json := alert_entry "2024-05-01T12:00:00" "MEDIUM" "second" "" 70.

Definition tie_world : world :=
  world_of_alerts [json_dumps_nl tie_first; json_dumps_nl tie_second].

(** A line cut short in the middle of a write, between two alerts. *)
Definition corrupt_world : world :=
  world_of_alerts
    [json_dumps_nl (severity_record "HIGH" 80); Garbage "{timestamp: 2024-05-01T12:0";
     json_dumps_nl (severity_record "LOW" 90)].

(** A line nested deeper than the interpreter's recursion limit, between
    the same two alerts: [json.loads] raises [RecursionError] on it. *)
Definition recursion_error : exn :=
  RuntimeError "maximum recursion depth exceeded while decoding a JSON array from a unicode string".

Definition nested_world : world :=
  world_of_alerts
    [json_dumps_nl (severity_record "HIGH" 80); Unreadable recursion_error;
     json_dumps_nl (severity_record "LOW" 90)].

Definition honeypot_error : json :=
  error_entry "2024-05-01T12:00:00" "SSH honeypot error: connection reset" "" 990.

Definition startup_info : json :=
  info_entry "2024-05-01T12:00:00" "AlertLogger initialized" (JDict []) 970.

(** A store with one alert, the same alert and one INFO record in the
    activity log, and one ERROR record. *)
Definition errors_world : world :=
  mkWorld (Some [json_dumps_nl (canary_entry 980)])
          (Some [json_dumps_nl startup_info; json_dumps_nl (canary_entry 980)])
          (Some [json_dumps_nl honeypot_error]) [] [] [] [].

(** An environment in which the notification command raises. *)
Definition env_notify_fails (t : Q) : env :=
  mkEnv "logs" (fun _ => "2024-05-01T12:00:00") (fun _ => t)
        (fun _ => "2024-05-01 12:00:00") (fun _ => None) None
        (Ok "Linux") (fun _ => Raise (OSError "notify-send: not found"))
        (Ok example_sysinfo)
        (fun _ => "2024-05-01 12:00:00") (fun p => p) (fun p => p) upper.

(** A console whose encoding is ASCII: it refuses a line with any other
    byte. *)
Definition ascii_console (s : string) : option exn :=
  if forallb (fun c => (nat_of_ascii c <? 128)%nat) (list_ascii_of_string s)
  then None
  else Some (ValueError "'ascii' codec can't encode character: ordinal not in range(128)").

(** The details of an alert on a file with an accented name: the two bytes
    are the UTF-8 form of U+00E9. *)
Definition accented_details : string :=
  "File: cl" ++ String (ascii_of_nat 195) (String (ascii_of_nat 169) "s.txt").

(** An environment in which the write to the activity log raises. *)
Definition env_activity_fails (t : Q) : env :=
  mkEnv "logs" (fun _ => "2024-05-01T12:00:00") (fun _ => t)
        (fun _ => "2024-05-01 12:00:00")
        (fun f => match f with
                  | ActivityLog => Some (OSError "No space left on device")
                  | _ => None
                  end)
        None (Ok "Windows") (fun _ => Ok 0%Z) (Ok example_sysinfo)
        (fun _ => "2024-05-01 12:00:00") (fun p => p) (fun p => p) upper.

Definition other_severity (to_upper : string -> string) (record : json) : bool :=
  negb (in_strings (severity_of to_upper record) ["HIGH"; "MEDIUM"; "LOW"]).

(** ** More vocabulary for the properties *)

Definition is_dict (v : json) : bool :=
  match v with
  | JDict _ => true
  | _ => false
  end.

(** [key in d]. *)
Definition has_key (d : list (string * json)) (key : string) : bool :=
  existsb (fun kv => String.eqb (fst kv) key) d.

(** [f] exists. *)
Definition log_exists (f : logfile) (w : world) : bool :=
  match log_of f w with
  | Some _ => true
  | None => false
  end.

(** The INFO record a call of [log_info] builds when it reads the clock
    first. *)
Definition info_at (e : env) (n : nat) (message : string) (details : option json) : json :=
  info_entry (clock_iso e n) message (details_or_empty details) (clock_epoch e (S n)).

Definition error_at (e : env) (n : nat) (message error_details : string) : json :=
  error_entry (clock_iso e n) message error_details (clock_epoch e (S n)).

(** An environment in which the export file cannot be written. *)
Definition env_export_fails (t : Q) : env :=
  mkEnv "logs" (fun _ => "2024-05-01T12:00:00") (fun _ => t)
        (fun _ => "2024-05-01 12:00:00") (fun _ => None)
        (Some (OSError "Permission denied: export.json"))
        (Ok "Windows") (fun _ => Ok 0%Z) (Ok example_sysinfo)
        (fun _ => "2024-05-01 12:00:00") (fun p => p) (fun p => p) upper.

(** ** Detectors under a sequence of calls *)

Inductive detector_call : Type := CallStart | CallStop.

(** One call on a file watcher. A call that raises leaves the object as it
    was. *)
Definition fw_call (c : detector_call) (e : env) (self : file_watcher) (w : world)
    : file_watcher * world :=
  match run e (match c with
               | CallStart => FileWatcher_start self
               | CallStop => FileWatcher_stop self
               end) w with
  | (Ok self', w') => (self', w')
  | (Raise _, w') => (self, w')
  end.

Fixpoint fw_calls (cs : list (env * detector_call)) (self : file_watcher) (w : world)
    : file_watcher * world :=
  match cs with
  | [] => (self, w)
  | (e, c) :: rest => let (self', w') := fw_call c e self w in fw_calls rest self' w'
  end.




(** The five subtypes [on_any_event] classifies. *)
Definition classified_subtypes : list string :=
  ["opened"; "accessed"; "modified"; "moved"; "deleted"].

(** An environment in which the probe of the system raises. *)
Definition env_probe_fails (t : Q) : env :=
  mkEnv "logs" (fun _ => "2024-05-01T12:00:00") (fun _ => t)
        (fun _ => "2024-05-01 12:00:00") (fun _ => None) None
        (Ok "Windows") (fun _ => Ok 0%Z) (Raise (OSError "gethostname failed"))
        (fun _ => "2024-05-01 12:00:00") (fun p => p) (fun p => p) upper.

(** ** The accept loop, turn by turn *)




Definition is_unwound (s : loop_state) : bool :=
  match s with
  | Unwound _ => true
  | _ => false
  end.

(** ** ConfigManager

    The configuration is the tree [yaml.safe_load] returns, with strings
    for keys; no mapping of it is shared between two places. What
    [yaml.dump] writes is kept as the document that loads back. *)

(** [s.split(sep)] for a separator of one character. *)
Fixpoint split_on (sep : ascii) (s : string) : list string :=
  match s with
  | EmptyString => [EmptyString]
  | String c s' =>
      if Ascii.eqb c sep then EmptyString :: split_on sep s'
      else
        match split_on sep s' with
        | [] => [String c EmptyString]
        | word :: words => String c word :: words
        end
  end.

(** [d[key] = v]: an existing key keeps its place, a new one goes last. *)
Fixpoint dict_set (d : list (string * json)) (key : string) (v : json)
    : list (string * json) :=
  match d with
  | [] => [(key, v)]
  | (k, old) :: d' =>
      if String.eqb k key then (k, v) :: d' else (k, old) :: dict_set d' key v
  end.

Record config_manager : Type := mkConfigManager {
  cm_config : json;
  cm_file : option json;
  cm_console : list string
}.

(** The loop of [get]. *)
Fixpoint get_walk (keys : list string) (value default : json) : json :=
  match keys with
  | [] => value
  | key :: rest =>
      match value with
      | JDict d =>
          if has_key d key then get_walk rest (dict_get d key JNull) default else default
      | _ => default
      end
  end.

Definition ConfigManager_get (self : config_manager) (key_path : string) (default : json)
    : json :=
  get_walk (split_on "." key_path) (cm_config self) default.

(** The loop of [set] over [keys[:-1]], then [config[keys[-1]] = value],
    on the keys [key :: rest]. Anything but a mapping met on the way makes
    the membership test, the indexing or the assignment raise [TypeError]. *)
Fixpoint set_walk (key : string) (rest : list string) (value config : json) : result json :=
  match config with
  | JDict d =>
      match rest with
      | [] => Ok (JDict (dict_set d key value))
      | next :: rest' =>
          let child := if has_key d key then dict_get d key JNull else JDict [] in
          match set_walk next rest' value child with
          | Ok child' => Ok (JDict (dict_set d key child'))
          | Raise x => Raise x
          end
      end
  | _ => Raise (TypeError "the value on the path is not a mapping")
  end.

(** [_save_config]: [mkdir_exc] is what creating the directory raises,
    outside the [try]; [open_exc] is what opening the file for writing
    raises, inside. A failure of [yaml.dump] on the open file, which would
    leave a document cut short, is not represented. *)
Definition _save_config (mkdir_exc open_exc : option exn) (config : json)
    (self : config_manager) : result unit * config_manager :=
  match mkdir_exc with
  | Some x => (Raise x, self)
  | None =>
      match open_exc with
      | Some x =>
          (Ok tt,
           mkConfigManager (cm_config self) (cm_file self)
             (cm_console self ++ [("Error saving config: " ++ exn_str x)%string]))
      | None => (Ok tt, mkConfigManager (cm_config self) (Some config) (cm_console self))
      end
  end.

Definition ConfigManager_set (mkdir_exc open_exc : option exn) (self : config_manager)
    (key_path : string) (value : json) : result unit * config_manager :=
  match split_on "." key_path with
  | [] => (Raise (RuntimeError "list index out of range"), self)
  | key :: rest =>
      match set_walk key rest value (cm_config self) with
      | Raise x => (Raise x, self)
      | Ok config' =>
          _save_config mkdir_exc open_exc config'
            (mkConfigManager config' (cm_file self) (cm_console self))
      end
  end.

Definition default_config : json :=
  JDict
    [("honeyhawk", JDict [("version", JStr "1.0.0"); ("name", JStr "HoneyHawk Canary Monitor")]);
     ("tokens", JDict [("generate_aws", JBool true); ("generate_ssh", JBool true);
                       ("generate_database", JBool true); ("generate_api", JBool true);
                       ("regenerate_interval_days", JNum 30)]);
     ("monitoring", JDict [("file_watch_enabled", JBool true);
                           ("network_monitor_enabled", JBool true);
                           ("ssh_honeypot_port", JNum 2222)]);
     ("alerting", JDict [("log_to_file", JBool true); ("system_notifications", JBool true);
                         ("email_alerts", JBool false); ("discord_webhook", JStr "");
                         ("slack_webhook", JStr "")]);
     ("logging", JDict [("log_level", JStr "INFO"); ("max_log_size_mb", JNum 100);
                        ("rotate_logs", JBool true)])].

(** A manager over the default configuration, saved. *)
Definition default_manager : config_manager :=
  mkConfigManager default_config (Some default_config) [].

(** ** HoneyHawk: the supervisor's stop *)




(** * Properties *)

(** ** The writers, call by call *)

Lemma lines_of_log_of (f : logfile) (w w' : world) :
  log_of f w' = log_of f w -> lines_of f w' = lines_of f w.
Proof. unfold lines_of. intros ->. reflexivity. Qed.

Lemma write_to_log_run (f : logfile) (entry : json) (e : env) (n : nat) (w : world) :
  exists w',
    _write_to_log f entry e n w = (Ok tt, n, w')
    /\ lines_of f w' = lines_of f w ++ written e f entry
    /\ (forall g, g <> f -> log_of g w' = log_of g w)
    /\ console w' = console w ++ write_error_lines e f
    /\ shell w' = shell w /\ exports w' = exports w /\ net w' = net w.
Proof.
  unfold _write_to_log, try_except, file_append, bind, ask, print, written,
    write_error_lines.
  destruct (write_exc e f) eqn:E.
  - eexists; split; [reflexivity |].
    simpl. rewrite app_nil_r. repeat split; auto.
  - eexists; split; [reflexivity |].
    rewrite app_nil_r.
    repeat split; try (destruct f; reflexivity).
    intros g Hg. destruct f, g; try reflexivity; congruence.
Qed.

Lemma log_error_run (message details : string) (e : env) (n : nat) (w : world) :
  exists w',
    log_error message details e n w = (Ok tt, S (S n), w')
    /\ lines_of ErrorLog w' =
         lines_of ErrorLog w
         ++ written e ErrorLog (error_entry (clock_iso e n) message details (clock_epoch e (S n)))
    /\ log_of AlertsLog w' = log_of AlertsLog w
    /\ log_of ActivityLog w' = log_of ActivityLog w
    /\ console w' = console w ++ write_error_lines e ErrorLog
    /\ shell w' = shell w /\ exports w' = exports w /\ net w' = net w.
Proof.
  unfold log_error, bind, datetime_now_isoformat, time_time.
  destruct (write_to_log_run ErrorLog
              (error_entry (clock_iso e n) message details (clock_epoch e (S n)))
              e (S (S n)) w) as (w' & Hrun & Hl & Hother & Hc & Hs & Hx & Hn).
  exists w'. rewrite Hrun.
  repeat split; auto; apply Hother; discriminate.
Qed.

Lemma log_info_run (message : string) (details : option json) (e : env) (n : nat) (w : world) :
  exists w',
    log_info message details e n w = (Ok tt, S (S n), w')
    /\ lines_of ActivityLog w' =
         lines_of ActivityLog w
         ++ written e ActivityLog
              (info_entry (clock_iso e n) message (details_or_empty details) (clock_epoch e (S n)))
    /\ log_of AlertsLog w' = log_of AlertsLog w
    /\ log_of ErrorLog w' = log_of ErrorLog w
    /\ console w' = console w ++ write_error_lines e ActivityLog
    /\ shell w' = shell w /\ exports w' = exports w /\ net w' = net w.
Proof.
  unfold log_info, bind, datetime_now_isoformat, time_time.
  destruct (write_to_log_run ActivityLog
              (info_entry (clock_iso e n) message (details_or_empty details) (clock_epoch e (S n)))
              e (S (S n)) w) as (w' & Hrun & Hl & Hother & Hc & Hs & Hx & Hn).
  exists w'. rewrite Hrun.
  repeat split; auto; apply Hother; discriminate.
Qed.

Lemma send_system_notification_run (message : string) (e : env) (n : nat) (w : world) :
  exists n' w',
    _send_system_notification message e n w = (Ok tt, n', w')
    /\ shell w' = shell w ++ notification_commands e message
    /\ lines_of ErrorLog w' = lines_of ErrorLog w ++ notification_error e n message
    /\ console w' = console w ++ notification_console e message
    /\ log_of AlertsLog w' = log_of AlertsLog w
    /\ log_of ActivityLog w' = log_of ActivityLog w
    /\ exports w' = exports w /\ net w' = net w.
Proof.
  unfold _send_system_notification, try_except, bind, py_os_system, ret,
    notification_error, notification_console, notification_failure,
    notification_commands.
  destruct (platform_system e) as [system | x] eqn:Ep.
  - destruct (String.eqb system "Darwin") eqn:Ed;
      [| destruct (String.eqb system "Linux") eqn:El].
    + destruct (os_system e (darwin_command message)) as [z | x] eqn:Eo.
      * do 2 eexists; split; [reflexivity |]. simpl.
        rewrite !app_nil_r. repeat split; reflexivity.
      * destruct (log_error_run
                    ("Failed to send system notification: " ++ exn_str x) "" e n
                    (set_shell (shell w ++ [darwin_command message]) w))
          as (w' & Hrun & Hl & Ha & Hc & Hp & Hs & Hx & Hn).
        do 2 eexists; split; [exact Hrun |]. repeat split; assumption.
    + destruct (os_system e (linux_command message)) as [z | x] eqn:Eo.
      * do 2 eexists; split; [reflexivity |]. simpl.
        rewrite !app_nil_r. repeat split; reflexivity.
      * destruct (log_error_run
                    ("Failed to send system notification: " ++ exn_str x) "" e n
                    (set_shell (shell w ++ [linux_command message]) w))
          as (w' & Hrun & Hl & Ha & Hc & Hp & Hs & Hx & Hn).
        do 2 eexists; split; [exact Hrun |]. repeat split; assumption.
    + do 2 eexists; split; [reflexivity |].
      rewrite !app_nil_r. repeat split; reflexivity.
  - destruct (log_error_run
                ("Failed to send system notification: " ++ exn_str x) "" e n w)
      as (w' & Hrun & Hl & Ha & Hc & Hp & Hs & Hx & Hn).
    do 2 eexists; split; [exact Hrun |].
    rewrite app_nil_r. repeat split; assumption.
Qed.

Lemma send_high_priority_alert_run (timestamp message details : string)
    (e : env) (n : nat) (w : world) :
  exists n' w',
    _send_high_priority_alert timestamp message details e n w = (Ok tt, n', w')
    /\ shell w' = shell w ++ notification_commands e message
    /\ lines_of ErrorLog w' = lines_of ErrorLog w ++ notification_error e n message
    /\ console w' =
         console w ++ hook_console timestamp message details ++ notification_console e message
    /\ log_of AlertsLog w' = log_of AlertsLog w
    /\ log_of ActivityLog w' = log_of ActivityLog w
    /\ exports w' = exports w /\ net w' = net w.
Proof.
  unfold _send_high_priority_alert, hook_console, bind.
  destruct (str_truthy details) eqn:Et; unfold print, ret;
    match goal with
    | |- context [_send_system_notification message e n ?w0] =>
        destruct (send_system_notification_run message e n w0)
          as (n' & w' & Hrun & Hs & Hl & Hc & Ha & Hv & Hx & Hn)
    end;
    exists n', w'; rewrite Hrun; simpl in *;
    rewrite Hc, <- !app_assoc; simpl;
    repeat split; assumption.
Qed.

(** Everything one call of [log_alert] does, the clock being at its [n]-th
    reading. *)
Lemma log_alert_run (severity message details : string) (e : env) (n : nat) (w : world) :
  exists n' w',
    log_alert severity message details e n w = (Ok tt, n', w')
    /\ lines_of AlertsLog w' =
         lines_of AlertsLog w ++ written e AlertsLog (alert_at e n severity message details)
    /\ lines_of ActivityLog w' =
         lines_of ActivityLog w ++ written e ActivityLog (alert_at e n severity message details)
    /\ lines_of ErrorLog w' =
         lines_of ErrorLog w
         ++ (if String.eqb severity "HIGH" then notification_error e (S (S n)) message else [])
    /\ shell w' =
         shell w ++ (if String.eqb severity "HIGH" then notification_commands e message else [])
    /\ console w' =
         console w ++ write_error_lines e AlertsLog ++ write_error_lines e ActivityLog
         ++ (if String.eqb severity "HIGH"
             then hook_console (clock_iso e n) message details ++ notification_console e message
             else [])
    /\ exports w' = exports w /\ net w' = net w.
Proof.
  unfold log_alert, bind, datetime_now_isoformat, time_time, alert_at.
  set (entry := alert_entry (clock_iso e n) severity message details (clock_epoch e (S n))).
  destruct (write_to_log_run AlertsLog entry e (S (S n)) w)
    as (w1 & Hrun1 & Hl1 & Ho1 & Hc1 & Hs1 & Hx1 & Hn1).
  rewrite Hrun1.
  destruct (write_to_log_run ActivityLog entry e (S (S n)) w1)
    as (w2 & Hrun2 & Hl2 & Ho2 & Hc2 & Hs2 & Hx2 & Hn2).
  rewrite Hrun2.
  assert (Ha2 : lines_of AlertsLog w2 = lines_of AlertsLog w ++ written e AlertsLog entry).
  { rewrite <- Hl1. apply lines_of_log_of, Ho2. discriminate. }
  assert (Hb2 : lines_of ActivityLog w2 = lines_of ActivityLog w ++ written e ActivityLog entry).
  { rewrite Hl2. f_equal. apply lines_of_log_of, Ho1. discriminate. }
  assert (He2 : lines_of ErrorLog w2 = lines_of ErrorLog w).
  { transitivity (lines_of ErrorLog w1); apply lines_of_log_of;
      [apply Ho2 | apply Ho1]; discriminate. }
  assert (Hcon2 : console w2 =
                  console w ++ write_error_lines e AlertsLog ++ write_error_lines e ActivityLog).
  { rewrite Hc2, Hc1, <- app_assoc. reflexivity. }
  destruct (String.eqb severity "HIGH") eqn:Eh.
  - destruct (send_high_priority_alert_run (clock_iso e n) message details e (S (S n)) w2)
      as (n' & w' & Hrun & Hs & Hl & Hc & Ha & Hv & Hx & Hn).
    exists n', w'. split; [exact Hrun |].
    repeat split.
    + rewrite <- Ha2. apply lines_of_log_of, Ha.
    + rewrite <- Hb2. apply lines_of_log_of, Hv.
    + rewrite Hl, He2. reflexivity.
    + rewrite Hs, Hs2, Hs1. reflexivity.
    + rewrite Hc, Hcon2, <- !app_assoc. reflexivity.
    + rewrite Hx, Hx2, Hx1. reflexivity.
    + rewrite Hn, Hn2, Hn1. reflexivity.
  - exists (S (S n)), w2. split; [reflexivity |].
    rewrite !app_nil_r.
    repeat split; try assumption.
    + rewrite Hs2, Hs1. reflexivity.
    + rewrite Hx2, Hx1. reflexivity.
    + rewrite Hn2, Hn1. reflexivity.
Qed.

(** ** The readers, record by record *)

Lemma Qgtb_true (a b : Q) : Qgtb a b = true <-> (b < a)%Q.
Proof.
  unfold Qgtb. rewrite negb_true_iff, <- not_true_iff_false, Qle_bool_iff.
  split; [apply Qnot_le_lt | apply Qlt_not_le].
Qed.

Lemma Qgtb_false (a b : Q) : Qgtb a b = false <-> (a <= b)%Q.
Proof.
  unfold Qgtb. rewrite negb_false_iff. apply Qle_bool_iff.
Qed.

Lemma well_formed_inv (r : json) :
  well_formed r = true ->
  exists d s,
    r = JDict d
    /\ as_number (dict_get d "epoch" (JNum 0)) = Some (epoch_of r)
    /\ dict_get d "severity" (JStr "") = JStr s
    /\ forall to_upper, severity_of to_upper r = to_upper s.
Proof.
  destruct r as [| | | | | d]; simpl; try discriminate.
  destruct (as_number (dict_get d "epoch" (JNum 0))) as [q |] eqn:Eq; [| discriminate].
  destruct (dict_get d "severity" (JStr "")) as [| | | s | |] eqn:Es; try discriminate.
  intros _. exists d, s. rewrite Es. auto.
Qed.

Lemma py_gt_numbers (a b : json) (x y : Q) :
  as_number a = Some x -> as_number b = Some y -> py_gt a b = Ok (Qgtb x y).
Proof. unfold py_gt. intros -> ->. reflexivity. Qed.

Lemma keep_recent_well_formed (c : Q) (acc : list json) (r : json) :
  well_formed r = true ->
  keep_recent c acc r = Ok (if Qgtb (epoch_of r) c then acc ++ [r] else acc).
Proof.
  intros H. destruct (well_formed_inv r H) as (d & s & -> & He & _ & _).
  unfold keep_recent. simpl py_get. unfold rbind.
  rewrite (py_gt_numbers _ (JNum c) _ c He eq_refl). reflexivity.
Qed.

Lemma parsed_cons_rendered (r : json) (ls : list line) :
  parsed (Rendered r :: ls) = r :: parsed ls.
Proof. reflexivity. Qed.

Lemma parsed_cons_garbage (t : string) (ls : list line) :
  parsed (Garbage t :: ls) = parsed ls.
Proof. reflexivity. Qed.

Lemma parsed_cons_unreadable (x : exn) (ls : list line) :
  parsed (Unreadable x :: ls) = JNull :: parsed ls.
Proof. reflexivity. Qed.

Lemma parsed_app (ls ls' : list line) : parsed (ls ++ ls') = parsed ls ++ parsed ls'.
Proof. unfold parsed. apply flat_map_app. Qed.

Lemma parsed_rendered (rs : list json) : parsed (map json_dumps_nl rs) = rs.
Proof.
  induction rs as [| r rs IH]; [reflexivity |].
  simpl map. unfold json_dumps_nl at 1. rewrite parsed_cons_rendered, IH. reflexivity.
Qed.

(** A scan of well-formed records keeps those inside the window, in file
    order, and skips the lines that do not parse. *)
Lemma for_lines_keep_recent (c : Q) (ls : list line) (acc : list json) :
  forallb well_formed (parsed ls) = true ->
  for_lines (keep_recent c) ls acc
  = Ok (acc ++ filter (fun r => Qgtb (epoch_of r) c) (parsed ls)).
Proof.
  revert acc. induction ls as [| l ls IH]; intros acc H.
  - simpl. rewrite app_nil_r. reflexivity.
  - destruct l as [r | t | x].
    + rewrite parsed_cons_rendered in *. simpl in H.
      apply andb_true_iff in H. destruct H as [Hr Hls].
      simpl for_lines. rewrite (keep_recent_well_formed c acc r Hr).
      rewrite IH by assumption. simpl filter.
      destruct (Qgtb (epoch_of r) c); [rewrite <- app_assoc |]; reflexivity.
    + rewrite parsed_cons_garbage in *. simpl for_lines. apply IH, H.
    + rewrite parsed_cons_unreadable in H. discriminate H.
Qed.

Lemma get_recent_alerts_run (hours : Z) (e : env) (w : world) :
  forallb well_formed (parsed (lines_of AlertsLog w)) = true ->
  run e (get_recent_alerts hours) w
  = (Ok (filter (in_window (clock_epoch e 0) hours) (parsed (lines_of AlertsLog w))), w).
Proof.
  intros H. unfold run, get_recent_alerts, bind, time_time, scan_log.
  rewrite for_lines_keep_recent by assumption. reflexivity.
Qed.

(** ** The store after a sequence of appends *)

Lemma run_eq {A} (c : M A) (e : env) (w : world) (r : result A) (n : nat) (w' : world) :
  c e O w = (r, n, w') -> run e c w = (r, w').
Proof. unfold run. intros ->. reflexivity. Qed.

Lemma append_run (e : env) (ev : event) (w : world) :
  exists w',
    run e (append ev) w = (Ok tt, w')
    /\ lines_of AlertsLog w'
       = lines_of AlertsLog w ++ map json_dumps_nl (stored_alert (e, ev))
    /\ exists extra,
         lines_of ActivityLog w' = lines_of ActivityLog w ++ extra
         /\ ((write_exc e AlertsLog = None -> write_exc e ActivityLog = None) ->
             incl (map json_dumps_nl (stored_alert (e, ev))) extra).
Proof.
  destruct ev as [severity message details | message details | message details]; simpl append.
  - destruct (log_alert_run severity message details e O w)
      as (n' & w' & Hrun & Ha & Hb & _).
    exists w'. split; [apply (run_eq _ _ _ _ _ _ Hrun) |].
    split.
    + rewrite Ha. unfold written, stored_alert.
      destruct (write_exc e AlertsLog); reflexivity.
    + eexists; split; [exact Hb |].
      intros Hw. unfold written, stored_alert.
      destruct (write_exc e AlertsLog); [apply incl_nil_l |].
      rewrite (Hw eq_refl). apply incl_refl.
  - destruct (log_info_run message details e O w) as (w' & Hrun & Hb & Ha & _).
    exists w'. split; [apply (run_eq _ _ _ _ _ _ Hrun) |].
    split.
    + simpl. rewrite app_nil_r. apply lines_of_log_of, Ha.
    + eexists; split; [exact Hb |]. intros _. apply incl_nil_l.
  - destruct (log_error_run message details e O w) as (w' & Hrun & _ & Ha & Hb & _).
    exists w'. split; [apply (run_eq _ _ _ _ _ _ Hrun) |].
    split.
    + simpl. rewrite app_nil_r. apply lines_of_log_of, Ha.
    + exists []. split; [| intros _; apply incl_nil_l].
      rewrite app_nil_r. apply lines_of_log_of, Hb.
Qed.

Lemma append_all_alerts (evs : list (env * event)) (w : world) :
  lines_of AlertsLog (append_all evs w)
  = lines_of AlertsLog w ++ map json_dumps_nl (stored_alerts evs).
Proof.
  revert w. induction evs as [| [e ev] evs IH]; intros w.
  - simpl. rewrite app_nil_r. reflexivity.
  - simpl append_all. destruct (append_run e ev w) as (w' & Hrun & Ha & _).
    rewrite Hrun. simpl snd. rewrite IH, Ha.
    unfold stored_alerts. simpl flat_map. rewrite map_app, app_assoc. reflexivity.
Qed.

Lemma new_store_alerts (e : env) : lines_of AlertsLog (new_store e) = [].
Proof.
  unfold new_store, AlertLogger_init, run, bind, touch.
  cbn [log_of set_log fresh_world alerts_log activity_log error_log].
  match goal with
  | |- context [log_info ?m ?d e O ?w0] =>
      destruct (log_info_run m d e O w0) as (w' & Hrun & _ & Ha & _)
  end.
  rewrite Hrun. cbn [snd]. rewrite (lines_of_log_of _ _ _ Ha). reflexivity.
Qed.

Lemma stored_alerts_well_formed (evs : list (env * event)) :
  forallb well_formed (stored_alerts evs) = true.
Proof.
  unfold stored_alerts. induction evs as [| [e ev] evs IH]; [reflexivity |].
  simpl flat_map. rewrite forallb_app, IH, andb_true_r.
  destruct ev; simpl; try reflexivity.
  destruct (write_exc e AlertsLog); reflexivity.
Qed.

Lemma stored_alerts_kind (evs : list (env * event)) :
  forallb is_security_alert (stored_alerts evs) = true.
Proof.
  unfold stored_alerts. induction evs as [| [e ev] evs IH]; [reflexivity |].
  simpl flat_map. rewrite forallb_app, IH, andb_true_r.
  destruct ev; simpl; try reflexivity.
  destruct (write_exc e AlertsLog); reflexivity.
Qed.

Lemma filter_all {A} (p : A -> bool) (xs : list A) :
  forallb p xs = true -> filter p xs = xs.
Proof.
  induction xs as [| x xs IH]; [reflexivity |].
  simpl. intros H. apply andb_true_iff in H. destruct H as [Hx Hxs].
  rewrite Hx, IH by assumption. reflexivity.
Qed.

(** The subtraction is exact on a clock that reads whole seconds, as long
    as the reading, the window and their difference stay below [2 ^ 53]. *)
Lemma exact_cutoff_whole_seconds (t hours : Z) :
  (Z.abs t < 2 ^ 53)%Z ->
  (Z.abs (hours * 3600) < 2 ^ 53)%Z ->
  (Z.abs (t - hours * 3600) < 2 ^ 53)%Z ->
  exact_cutoff (inject_Z t) hours.
Proof.
  intros Ht Hh Hd. split; [| split].
  - exists t, 0%Z. repeat split; try lia. simpl Qpower. ring.
  - exists (hours * 3600)%Z, 0%Z. repeat split; try lia. simpl Qpower. ring.
  - exists (t - hours * 3600)%Z, 0%Z. repeat split; try lia. simpl Qpower.
    unfold Z.sub. rewrite inject_Z_plus, inject_Z_opp. ring.
Qed.

Lemma pow2_inv (k : Z) : (k <= 0)%Z -> inject_Z (2 ^ (- k)) * 2 ^ k == 1.
Proof.
  intros Hk. rewrite Zpower_Qpower by lia. rewrite Qpower_opp.
  change (inject_Z 2) with 2.
  assert (H : ~ 2 ^ k == 0).
  { intros H0. pose proof (Qpower_0_lt 2 k eq_refl) as Hp. rewrite H0 in Hp.
    discriminate Hp. }
  field. exact H.
Qed.

(** It is exact as well on a clock that reads fractions of a second, for a
    window of whole seconds that does not reach behind the origin of the
    clock: the difference is a multiple of the same power of two, and
    smaller than the reading. *)
Lemma exact_cutoff_within_reading (m k hours : Z) :
  (0 <= m < 2 ^ 53)%Z ->
  (-1074 <= k <= 0)%Z ->
  (0 <= hours * 3600 < 2 ^ 53)%Z ->
  (hours * 3600 * 2 ^ (- k) <= m)%Z ->
  exact_cutoff (inject_Z m * 2 ^ k) hours.
Proof.
  intros Hm Hk Hn Hle. split; [| split].
  - exists m, k. repeat split; try lia.
  - exists (hours * 3600)%Z, 0%Z. repeat split; try lia. simpl Qpower. ring.
  - exists (m - hours * 3600 * 2 ^ (- k))%Z, k.
    assert (0 <= hours * 3600 * 2 ^ (- k))%Z
      by (apply Z.mul_nonneg_nonneg; [lia | apply Z.pow_nonneg; lia]).
    repeat split; try lia.
    unfold Z.sub at 1. rewrite inject_Z_plus, inject_Z_opp, (inject_Z_mult (hours * 3600)).
    rewrite Qmult_plus_distr_l.
    setoid_replace (- (inject_Z (hours * 3600) * inject_Z (2 ^ (- k))) * 2 ^ k)
      with (- inject_Z (hours * 3600) * (inject_Z (2 ^ (- k)) * 2 ^ k)) by ring.
    rewrite pow2_inv by lia. ring.
Qed.

(** C1. Whatever events were appended to a new store, [get_recent_alerts
    hours] returns, in insertion order, exactly the stored SECURITY_ALERT
    records whose epoch is strictly greater than [now - hours * 3600]: it
    is the list of stored alerts filtered by any test [keep] that holds of
    a record exactly when [now - hours * 3600 < epoch], the epoch of a
    stored alert being the reading of the clock at its append. With a
    window that reaches behind every stored alert it returns all of them;
    and of three alerts stamped [t - 3601], [t - 3599] and [t] a one-hour
    window read at [t] returns the last two. The bound is the one the code
    computes in floating point as long as that computation is exact
    ([exact_cutoff]). *)
Theorem C1_recent_alerts (e0 : env) (evs : list (env * event)) (e : env) (hours : Z) :
  let now := clock_epoch e 0 in
  let store := append_all evs (new_store e0) in
  exact_cutoff now hours ->
  exists alerts,
    run e (get_recent_alerts hours) store = (Ok alerts, store)
    /\ (forall keep : json -> bool,
          (forall r, keep r = true <-> now - inject_Z (hours * 3600) < epoch_of r) ->
          alerts = filter keep (stored_alerts evs))
    /\ (forall e1 severity message details,
          epoch_of (alert_at e1 0 severity message details) = clock_epoch e1 1)
    /\ forallb is_security_alert (stored_alerts evs) = true
    /\ ((forall r, In r (stored_alerts evs) ->
                   now - inject_Z (hours * 3600) < epoch_of r) ->
        alerts = stored_alerts evs)
    /\ (forall t : Q,
          exact_cutoff t 1 ->
          fst (run (env_at t) (get_recent_alerts 1)
                 (append_all [(env_at (t - 3601), canary_alert);
                              (env_at (t - 3599), canary_alert);
                              (env_at t, canary_alert)] (new_store e0)))
          = Ok [canary_entry (t - 3599); canary_entry t]).
Proof.
  assert (Hgen : forall evs' e' hours',
             run e' (get_recent_alerts hours') (append_all evs' (new_store e0))
             = (Ok (filter (in_window (clock_epoch e' 0) hours') (stored_alerts evs')),
                append_all evs' (new_store e0))).
  { intros evs' e' hours'.
    assert (Hl : parsed (lines_of AlertsLog (append_all evs' (new_store e0)))
                 = stored_alerts evs').
    { rewrite append_all_alerts, new_store_alerts. simpl. apply parsed_rendered. }
    rewrite get_recent_alerts_run; rewrite Hl;
      [reflexivity | apply stored_alerts_well_formed]. }
  cbv zeta. intros _.
  exists (filter (in_window (clock_epoch e 0) hours) (stored_alerts evs)).
  split; [apply Hgen |].
  split.
  { intros keep Hkeep. apply filter_ext. intros r.
    apply eq_true_iff_eq. unfold in_window, cutoff. rewrite Qgtb_true.
    symmetry. apply Hkeep. }
  split; [reflexivity |].
  split; [apply stored_alerts_kind |].
  split.
  - intros Hall. apply filter_all, forallb_forall. intros r Hr.
    unfold in_window, cutoff. apply Qgtb_true, Hall, Hr.
  - intros t _. rewrite Hgen. simpl fst. f_equal.
    unfold stored_alerts, canary_alert. simpl.
    unfold in_window, alert_at, epoch_of, cutoff. simpl.
    assert (H1 : Qgtb (t - 3601) (t - inject_Z 3600) = false)
      by (apply Qgtb_false; unfold inject_Z; lra).
    assert (H2 : Qgtb (t - 3599) (t - inject_Z 3600) = true)
      by (apply Qgtb_true; unfold inject_Z; lra).
    assert (H3 : Qgtb t (t - inject_Z 3600) = true)
      by (apply Qgtb_true; unfold inject_Z; lra).
    rewrite H1, H2, H3. reflexivity.
Qed.

(** ** The audit trail *)

Lemma in_parsed (r : json) (ls : list line) :
  In (json_dumps_nl r) ls -> In r (parsed ls).
Proof.
  unfold parsed, json_dumps_nl. rewrite in_flat_map.
  intros H. exists (Rendered r). split; [exact H | left; reflexivity].
Qed.

Lemma append_all_activity (evs : list (env * event)) (w : world) :
  (forall e ev, In (e, ev) evs ->
                write_exc e AlertsLog = None -> write_exc e ActivityLog = None) ->
  exists extra,
    lines_of ActivityLog (append_all evs w) = lines_of ActivityLog w ++ extra
    /\ incl (map json_dumps_nl (stored_alerts evs)) extra.
Proof.
  revert w. induction evs as [| [e ev] evs IH]; intros w H.
  - exists []. simpl. rewrite app_nil_r. split; [reflexivity | apply incl_refl].
  - simpl append_all.
    destruct (append_run e ev w) as (w' & Hrun & _ & extra1 & Hb & Hincl).
    rewrite Hrun. simpl snd.
    destruct (IH w') as (extra2 & Hb2 & Hincl2).
    { intros e' ev' Hin. apply (H e' ev'). right. exact Hin. }
    exists (extra1 ++ extra2). split.
    + rewrite Hb2, Hb, app_assoc. reflexivity.
    + unfold stored_alerts. simpl flat_map. rewrite map_app.
      apply incl_app.
      * apply incl_appl, Hincl, (H e ev). left. reflexivity.
      * apply incl_appr, Hincl2.
Qed.

Lemma stored_alert_in (evs : list (env * event)) (e : env) (severity message details : string) :
  In (e, SecurityAlert severity message details) evs ->
  write_exc e AlertsLog = None ->
  In (alert_at e 0 severity message details) (stored_alerts evs).
Proof.
  intros Hin Hw. unfold stored_alerts. apply in_flat_map.
  exists (e, SecurityAlert severity message details). split; [exact Hin |].
  simpl. rewrite Hw. left. reflexivity.
Qed.

(** C10, as the code has it. In a run where the write to the activity log
    goes through whenever the write to the alerts log does, every alert that
    [log_alert] stores is in both logs as the same record, and the records
    of the alerts log stay among those of the activity log. *)
Theorem C10_audit_trail (evs : list (env * event)) (w : world) :
  (forall e ev, In (e, ev) evs ->
                write_exc e AlertsLog = None -> write_exc e ActivityLog = None) ->
  incl (parsed (lines_of AlertsLog w)) (parsed (lines_of ActivityLog w)) ->
  let w' := append_all evs w in
  incl (parsed (lines_of AlertsLog w')) (parsed (lines_of ActivityLog w'))
  /\ forall e severity message details,
       In (e, SecurityAlert severity message details) evs ->
       write_exc e AlertsLog = None ->
       In (alert_at e 0 severity message details) (parsed (lines_of AlertsLog w'))
       /\ In (alert_at e 0 severity message details) (parsed (lines_of ActivityLog w')).
Proof.
  intros Hw Hinv. cbv zeta.
  destruct (append_all_activity evs w Hw) as (extra & Hb & Hincl).
  rewrite append_all_alerts, Hb, !parsed_app, parsed_rendered.
  assert (Hstored : incl (stored_alerts evs) (parsed extra)).
  { intros r Hr. apply in_parsed, Hincl, in_map, Hr. }
  split.
  - apply incl_app; [apply incl_appl, Hinv | apply incl_appr, Hstored].
  - intros e severity message details Hin Hok.
    pose proof (stored_alert_in evs e severity message details Hin Hok) as Hs.
    split; apply in_or_app; right; [exact Hs | apply Hstored, Hs].
Qed.

(** ** The high-priority hook *)

(** C6, as the code has it. On a console that takes every line [log_alert]
    never raises, whatever the rest of the environment does. It runs the
    hook (the emphasised lines on the console, then the notification
    command of the platform) exactly when the severity is ["HIGH"]; an
    exception of the notification step is handed to [log_error], which
    leaves a record of type ERROR when its own write goes through. The
    lines of the hook are printed outside every [try]: when the console
    refuses one of them, [log_alert] raises that exception to its caller,
    the alert being in its two logs already, and neither an ERROR record
    nor a notification follows. *)
Ltac hook_raises H :=
  injection H as H; subst; eexists; split; [reflexivity |];
  unfold alert_at; repeat split; try (unfold lines_of; simpl; reflexivity).

Theorem C6_high_priority_hook (severity message details : string) (e : env) (w : world) :
  (exists w',
    run e (log_alert severity message details) w = (Ok tt, w')
    /\ shell w' =
         shell w ++ (if String.eqb severity "HIGH" then notification_commands e message else [])
    /\ console w' =
         console w ++ write_error_lines e AlertsLog ++ write_error_lines e ActivityLog
         ++ (if String.eqb severity "HIGH"
             then hook_console (clock_iso e 0) message details ++ notification_console e message
             else [])
    /\ lines_of ErrorLog w' =
         lines_of ErrorLog w
         ++ (if String.eqb severity "HIGH" then notification_error e 2 message else [])
    /\ (forall x,
          String.eqb severity "HIGH" = true ->
          notification_failure e message = Some x ->
          write_exc e ErrorLog = None ->
          lines_of ErrorLog w' =
            lines_of ErrorLog w
            ++ [json_dumps_nl
                  (JDict [("timestamp", JStr (clock_iso e 2)); ("type", JStr "ERROR");
                          ("message",
                           JStr ("Failed to send system notification: " ++ exn_str x));
                          ("details", JStr ""); ("epoch", JNum (clock_epoch e 3))])]))
  /\ log_alert_on (fun _ => None) severity message details
     = log_alert severity message details
  /\ (forall (stdout_exc : string -> option exn) (x : exn),
        String.eqb severity "HIGH" = true ->
        write_exc e AlertsLog = None ->
        write_exc e ActivityLog = None ->
        first_refused stdout_exc (hook_console (clock_iso e 0) message details) = Some x ->
        exists w',
          run e (log_alert_on stdout_exc severity message details) w = (Raise x, w')
          /\ lines_of AlertsLog w' =
               lines_of AlertsLog w
               ++ [json_dumps_nl (alert_at e 0 severity message details)]
          /\ lines_of ActivityLog w' =
               lines_of ActivityLog w
               ++ [json_dumps_nl (alert_at e 0 severity message details)]
          /\ lines_of ErrorLog w' = lines_of ErrorLog w
          /\ shell w' = shell w).
Proof.
  split; [| split].
  - destruct (log_alert_run severity message details e O w)
      as (n' & w' & Hrun & _ & _ & He & Hs & Hc & _).
    exists w'. split; [apply (run_eq _ _ _ _ _ _ Hrun) |].
    repeat split; try assumption.
    intros x Hh Hf Hw. rewrite He, Hh.
    unfold notification_error, written. rewrite Hf, Hw. reflexivity.
  - reflexivity.
  - intros stdout_exc x Hh Ha Hb Hr.
    unfold run, log_alert_on, bind, datetime_now_isoformat, time_time, _write_to_log_on,
      try_except, file_append.
    rewrite Ha, Hb, Hh.
    unfold _send_high_priority_alert_on, bind, print_on, print, ret.
    unfold hook_console in Hr. cbn [first_refused app] in Hr.
    destruct (stdout_exc (nl ++ rule60)%string) as [x1 |];
      [hook_raises Hr |].
    destruct (stdout_exc "[!] HIGH PRIORITY ALERT [!]") as [x2 |];
      [hook_raises Hr |].
    destruct (stdout_exc ("Time: " ++ clock_iso e 0)%string) as [x3 |];
      [hook_raises Hr |].
    destruct (stdout_exc ("Message: " ++ message)%string) as [x4 |];
      [hook_raises Hr |].
    destruct (str_truthy details); cbn [first_refused app] in Hr.
    + destruct (stdout_exc ("Details: " ++ details)%string) as [x5 |];
        [hook_raises Hr |].
      destruct (stdout_exc (rule60 ++ nl)%string) as [x6 |];
        [hook_raises Hr |].
      discriminate Hr.
    + destruct (stdout_exc (rule60 ++ nl)%string) as [x6 |];
        [hook_raises Hr |].
      discriminate Hr.
Qed.

(** ** Classification of filesystem events *)

Lemma get_system_info_run (e : env) (n : nat) (w : world) :
  _get_system_info e n w = (Ok (system_info_of e), n, w).
Proof.
  unfold _get_system_info, system_info_of.
  destruct (system_info_probe e); reflexivity.
Qed.

Lemma handle_file_access_run (d : event_details) (e : env) (n : nat) (w : world) :
  exists n' w',
    _handle_file_access d e n w = (Ok tt, n', w')
    /\ lines_of AlertsLog w' =
         lines_of AlertsLog w
         ++ written e AlertsLog (alert_at e n "HIGH" access_message (access_details e d)).
Proof.
  unfold _handle_file_access, bind, ask.
  destruct (log_alert_run "HIGH" access_message (access_details e d) e n w)
    as (n' & w' & Hrun & Ha & _).
  rewrite Hrun. unfold print. do 2 eexists. split; [reflexivity |]. exact Ha.
Qed.

Lemma handle_file_modification_run (d : event_details) (e : env) (n : nat) (w : world) :
  exists n' w',
    _handle_file_modification d e n w = (Ok tt, n', w')
    /\ lines_of AlertsLog w' =
         lines_of AlertsLog w
         ++ written e AlertsLog
              (alert_at e n "MEDIUM" (modification_message d) (modification_details e d)).
Proof.
  unfold _handle_file_modification, bind, ask.
  destruct (log_alert_run "MEDIUM" (modification_message d) (modification_details e d) e n w)
    as (n' & w' & Hrun & Ha & _).
  rewrite Hrun. unfold print. do 2 eexists. split; [reflexivity |]. exact Ha.
Qed.

(** C4. [on_any_event] turns an event on a file into one call of
    [log_alert]: severity ["HIGH"] for the subtypes [opened] and [accessed],
    severity ["MEDIUM"] for [modified], [moved] and [deleted]; that call
    adds its one record to the alerts log (none only if the write itself
    raises). An event on a directory changes nothing. *)
Theorem C4_classification (e : env) (w : world) (path dest : string) :
  (forall subtype,
      In subtype ["opened"; "accessed"] ->
      let d := mkDetails subtype path (clock_epoch e 0) (system_info_of e) in
      exists w',
        run e (on_any_event (mkEvent false subtype path dest)) w = (Ok tt, w')
        /\ lines_of AlertsLog w' =
             lines_of AlertsLog w
             ++ written e AlertsLog (alert_at e 1 "HIGH" access_message (access_details e d)))
  /\ (forall subtype,
        In subtype ["modified"; "moved"; "deleted"] ->
        let d := mkDetails subtype path (clock_epoch e 0) (system_info_of e) in
        exists w',
          run e (on_any_event (mkEvent false subtype path dest)) w = (Ok tt, w')
          /\ lines_of AlertsLog w' =
               lines_of AlertsLog w
               ++ written e AlertsLog
                    (alert_at e 1 "MEDIUM" (modification_message d) (modification_details e d)))
  /\ (forall subtype,
        run e (on_any_event (mkEvent true subtype path dest)) w = (Ok tt, w)).
Proof.
  split; [| split].
  - intros subtype Hin d.
    destruct (handle_file_access_run d e 1 w) as (n' & w' & Hrun & Ha).
    exists w'. split; [| exact Ha].
    apply (run_eq _ _ _ _ n').
    unfold on_any_event, bind. cbn [is_directory event_type src_path].
    rewrite get_system_info_run. unfold time_time.
    simpl in Hin. destruct Hin as [<- | [<- | []]]; exact Hrun.
  - intros subtype Hin d.
    destruct (handle_file_modification_run d e 1 w) as (n' & w' & Hrun & Ha).
    exists w'. split; [| exact Ha].
    apply (run_eq _ _ _ _ n').
    unfold on_any_event, bind. cbn [is_directory event_type src_path].
    rewrite get_system_info_run. unfold time_time.
    simpl in Hin. destruct Hin as [<- | [<- | [<- | []]]]; exact Hrun.
  - intros subtype. reflexivity.
Qed.

(** ** The honeypot's accept loop *)

Lemma handle_connection_run (host : string) (port : Z) (send_exc close_exc : option exn)
    (e : env) (w : world) :
  exists n' w',
    handle_connection host port send_exc close_exc e O w = (Ok tt, n', w')
    /\ lines_of AlertsLog w' =
         lines_of AlertsLog w
         ++ written e AlertsLog
              (alert_at e 1 "HIGH" ssh_message (ssh_details host port (clock_strftime e 0)))
    /\ net w' = net w ++ socket_trace host port send_exc close_exc.
Proof.
  unfold handle_connection, bind, datetime_now_strftime.
  destruct (log_alert_run "HIGH" ssh_message (ssh_details host port (clock_strftime e 0)) e 1 w)
    as (n' & w' & Hrun & Ha & _ & _ & _ & _ & _ & Hn).
  rewrite Hrun.
  unfold print, try_except, bind, client_send, time_sleep, client_close, ret, socket_trace.
  destruct send_exc as [x |]; [| destruct close_exc as [y |]];
    do 2 eexists; (split; [reflexivity |]); simpl;
    rewrite ?app_nil_r, ?Hn, <- ?app_assoc; split; auto.
Qed.



(** ** Stopping the detectors *)

Lemma fw_consistent_init (dir : string) : fw_consistent (FileWatcher_init dir) = true.
Proof. reflexivity. Qed.

Lemma fw_consistent_start (self self' : file_watcher) (e : env) (w w' : world) :
  run e (FileWatcher_start self) w = (Ok self', w') -> fw_consistent self' = true.
Proof.
  unfold run, FileWatcher_start, bind, observer_start.
  destruct (fw_observer self); unfold raise, ret; try discriminate.
  match goal with
  | |- context [log_info ?m ?d e O w] =>
      destruct (log_info_run m d e O w) as (w1 & Hrun & _)
  end.
  rewrite Hrun. unfold print. intros H. injection H as <- _. reflexivity.
Qed.

Lemma for_each_no_stop (monitors : list thread) (e : env) (n : nat) (w : world) :
  for_each (fun monitor => if hasattr_stop monitor then monitor_stop monitor else ret tt)
           monitors e n w
  = (Ok tt, n, w).
Proof.
  induction monitors as [| m ms IH]; [reflexivity |].
  simpl for_each. unfold bind. simpl. exact IH.
Qed.

(** C9. Stopping a file watcher whose flag agrees with its observer, or a
    network monitor in any state, raises nothing and leaves the flag false;
    a second [stop] raises nothing either and returns the detector as the
    first one left it. For the file watcher the second call changes nothing
    at all. *)
Theorem C9_stop_idempotent :
  (forall (self : file_watcher) (e1 e2 : env) (w : world),
      fw_consistent self = true ->
      exists self1 w1,
        run e1 (FileWatcher_stop self) w = (Ok self1, w1)
        /\ fw_is_running self1 = false
        /\ FileWatcher_is_alive self1 = false
        /\ fw_consistent self1 = true
        /\ run e2 (FileWatcher_stop self1) w1 = (Ok self1, w1))
  /\ (forall (self : network_monitor) (e1 e2 : env) (w : world),
        exists self1 w1 w2,
          run e1 (NetworkMonitor_stop self) w = (Ok self1, w1)
          /\ nm_is_running self1 = false
          /\ run e2 (NetworkMonitor_stop self1) w1 = (Ok self1, w2)).
Proof.
  split.
  - intros [dir o running] e1 e2 w Hc.
    destruct running.
    + destruct o; [discriminate Hc | |];
        unfold run, FileWatcher_stop, bind, observer_join, observer_stop, ret;
        cbn [fw_is_running fw_observer watch_directory];
        match goal with
        | |- context [log_info ?m ?d e1 O w] =>
            destruct (log_info_run m d e1 O w) as (w1 & Hrun & _)
        end;
        rewrite Hrun; do 2 eexists; repeat split.
    + exists (mkFileWatcher dir o false), w. repeat split.
  - intros [running monitors] e1 e2 w.
    unfold run, NetworkMonitor_stop, bind. cbn [nm_monitors].
    rewrite !for_each_no_stop.
    destruct (log_info_run "Network monitoring stopped" None e1 O w) as (w1 & Hrun1 & _).
    rewrite Hrun1. unfold ret.
    exists (mkNetworkMonitor false monitors), w1.
    rewrite for_each_no_stop.
    destruct (log_info_run "Network monitoring stopped" None e2 O w1) as (w2 & Hrun2 & _).
    rewrite Hrun2. exists w2. repeat split.
Qed.

(** ** The summary *)

Lemma summarize_well_formed (up : string -> string) (c : Q) (s : summary) (r : json) :
  well_formed r = true ->
  (forall l, last_alert s = Some l -> well_formed l = true) ->
  summarize up c s r
  = Ok (mkSummary (total_alerts s + 1)
          (bump (has_severity up "HIGH" r) (high_severity s))
          (bump (has_severity up "MEDIUM" r) (medium_severity s))
          (bump (has_severity up "LOW" r) (low_severity s))
          (bump (Qgtb (epoch_of r) c) (last_24h s))
          (match last_alert s with
           | None => Some r
           | Some l => if Qgtb (epoch_of r) (epoch_of l) then Some r else Some l
           end)).
Proof.
  intros Hr Hl.
  destruct (well_formed_inv r Hr) as (d & sev & Hd & He & Hs & Hu).
  unfold has_severity. rewrite (Hu up). subst r.
  unfold summarize. cbn [py_get rbind]. rewrite Hs. cbn [py_upper rbind].
  rewrite (py_gt_numbers _ (JNum c) _ c He eq_refl). cbn [rbind].
  unfold count_severity, bump.
  destruct (Qgtb (epoch_of (JDict d)) c);
    (destruct (String.eqb_spec (up sev) "HIGH") as [-> | Hh];
     [| destruct (String.eqb_spec (up sev) "MEDIUM") as [-> | Hm];
        [| destruct (String.eqb (up sev) "LOW")]]);
    cbn [total_alerts high_severity medium_severity low_severity last_24h last_alert
         String.eqb Ascii.eqb Bool.eqb];
    (destruct (last_alert s) as [l |] eqn:El; [| reflexivity]);
    destruct (well_formed_inv l (Hl l eq_refl)) as (dl & sl & Hdl & Hel & _ & _);
    rewrite Hdl in *; unfold is_more_recent; cbn [py_get rbind];
    rewrite (py_gt_numbers _ _ _ _ He Hel); cbn [rbind];
    destruct (Qgtb (epoch_of (JDict d)) (epoch_of (JDict dl))); reflexivity.
Qed.

Lemma count_where_snoc (p : json -> bool) (rs : list json) (r : json) :
  count_where p (rs ++ [r]) = bump (p r) (count_where p rs).
Proof.
  unfold count_where, bump. rewrite filter_app. simpl.
  destruct (p r); rewrite ?app_nil_r; [| reflexivity].
  rewrite length_app. simpl. lia.
Qed.

Lemma forallb_In {A} (p : A -> bool) (xs : list A) (x : A) :
  forallb p xs = true -> In x xs -> p x = true.
Proof. intros H Hin. rewrite forallb_forall in H. apply H, Hin. Qed.

Lemma first_latest_snoc (rs : list json) (l r : json) :
  first_latest rs l ->
  first_latest (rs ++ [r]) (if Qgtb (epoch_of r) (epoch_of l) then r else l).
Proof.
  intros (i & Hi & Hmax & Hfirst).
  assert (Hlen : (i < length rs)%nat) by (apply nth_error_Some; congruence).
  destruct (Qgtb (epoch_of r) (epoch_of l)) eqn:Eg.
  - apply Qgtb_true in Eg. exists (length rs). split; [| split].
    + rewrite nth_error_app2, Nat.sub_diag by lia. reflexivity.
    + intros r' Hin. apply in_app_or in Hin. destruct Hin as [Hin | [<- | []]].
      * apply Qlt_le_weak. eapply Qle_lt_trans; [apply Hmax, Hin | exact Eg].
      * apply Qle_refl.
    + intros j r' Hj Hnth. rewrite nth_error_app1 in Hnth by exact Hj.
      eapply Qle_lt_trans; [apply Hmax; eapply nth_error_In; exact Hnth | exact Eg].
  - apply Qgtb_false in Eg. exists i. split; [| split].
    + rewrite nth_error_app1 by exact Hlen. exact Hi.
    + intros r' Hin. apply in_app_or in Hin. destruct Hin as [Hin | [<- | []]].
      * apply Hmax, Hin.
      * exact Eg.
    + intros j r' Hj Hnth. rewrite nth_error_app1 in Hnth by lia.
      apply (Hfirst j r' Hj Hnth).
Qed.

Lemma summarises_step (up : string -> string) (c : Q) (rs : list json) (s : summary)
    (r : json) :
  forallb well_formed rs = true ->
  well_formed r = true ->
  summarises up c rs s ->
  exists s', summarize up c s r = Ok s' /\ summarises up c (rs ++ [r]) s'.
Proof.
  intros Hrs Hr (Ht & Hh & Hm & Hl & H24 & Hlast).
  eexists. split.
  - apply summarize_well_formed; [exact Hr |].
    intros l El. rewrite El in Hlast. destruct Hlast as (i & Hi & _).
    apply (forallb_In _ rs); [exact Hrs | eapply nth_error_In; exact Hi].
  - unfold summarises.
    cbn [total_alerts high_severity medium_severity low_severity last_24h last_alert].
    rewrite !count_where_snoc, <- Hh, <- Hm, <- Hl, <- H24, Ht.
    repeat split; try reflexivity.
    + rewrite length_app. simpl. lia.
    + destruct (last_alert s) as [l |].
      * pose proof (first_latest_snoc rs l r Hlast) as Hn.
        destruct (Qgtb (epoch_of r) (epoch_of l)); exact Hn.
      * subst rs. exists O. repeat split.
        -- intros r' [<- | []]. apply Qle_refl.
        -- intros j r' Hj. lia.
Qed.

Lemma for_lines_summarize (up : string -> string) (c : Q) (ls : list line)
    (rs : list json) (s : summary) :
  forallb well_formed rs = true ->
  forallb well_formed (parsed ls) = true ->
  summarises up c rs s ->
  exists s',
    for_lines (summarize up c) ls s = Ok s' /\ summarises up c (rs ++ parsed ls) s'.
Proof.
  revert rs s. induction ls as [| l ls IH]; intros rs s Hrs Hls Hs.
  - exists s. simpl. rewrite app_nil_r. split; [reflexivity | exact Hs].
  - destruct l as [r | t | x];
      [| | rewrite parsed_cons_unreadable in Hls; discriminate Hls].
    + rewrite parsed_cons_rendered in *. simpl in Hls.
      apply andb_true_iff in Hls. destruct Hls as [Hr Hls].
      destruct (summarises_step up c rs s r Hrs Hr Hs) as (s1 & Hstep & Hs1).
      destruct (IH (rs ++ [r]) s1) as (s' & Hrun & Hs'); try assumption.
      { rewrite forallb_app, Hrs. simpl. rewrite Hr. reflexivity. }
      exists s'. simpl for_lines. rewrite Hstep. split; [exact Hrun |].
      rewrite <- app_assoc in Hs'. exact Hs'.
    + rewrite parsed_cons_garbage in *. simpl for_lines. apply IH; assumption.
Qed.

Lemma summarises_empty (up : string -> string) (c : Q) : summarises up c [] empty_summary.
Proof. repeat split. Qed.

Lemma get_alert_summary_run (e : env) (w : world) :
  forallb well_formed (parsed (lines_of AlertsLog w)) = true ->
  exists s,
    run e get_alert_summary w = (Ok s, w)
    /\ summarises (str_upper e) (cutoff (clock_epoch e 0) 24)
         (parsed (lines_of AlertsLog w)) s.
Proof.
  intros H.
  destruct (for_lines_summarize (str_upper e) (cutoff (clock_epoch e 0) 24)
              (lines_of AlertsLog w) [] empty_summary eq_refl H (summarises_empty _ _))
    as (s & Hrun & Hs).
  exists s. split; [| exact Hs].
  unfold run, get_alert_summary, bind, time_time, ask, scan_log. rewrite Hrun.
  reflexivity.
Qed.

Lemma count_where_cons (p : json -> bool) (r : json) (rs : list json) :
  count_where p (r :: rs) = (count_where p rs + (if p r then 1 else 0))%Z.
Proof.
  unfold count_where. simpl. destruct (p r); simpl length; lia.
Qed.

(** Every record falls in exactly one of the four classes. *)
Lemma count_partition (up : string -> string) (rs : list json) :
  Z.of_nat (length rs)
  = (count_where (has_severity up "HIGH") rs + count_where (has_severity up "MEDIUM") rs
     + count_where (has_severity up "LOW") rs + count_where (other_severity up) rs)%Z.
Proof.
  induction rs as [| r rs IH]; [reflexivity |].
  rewrite !count_where_cons. simpl length. rewrite Nat2Z.inj_succ, IH.
  unfold other_severity, has_severity, in_strings. simpl existsb.
  destruct (String.eqb_spec (severity_of up r) "HIGH") as [-> | Hh]; [simpl; lia |].
  destruct (String.eqb_spec (severity_of up r) "MEDIUM") as [-> | Hm]; [simpl; lia |].
  destruct (String.eqb (severity_of up r) "LOW"); simpl; lia.
Qed.

Lemma count_where_severity (up : string -> string) (name : string) (rs : list json) :
  count_where (has_severity up name) rs
  = Z.of_nat (length (filter (fun s => String.eqb s name) (map (severity_of up) rs))).
Proof.
  unfold count_where, has_severity. f_equal.
  induction rs as [| r rs IH]; [reflexivity |].
  simpl. destruct (String.eqb (severity_of up r) name); simpl; rewrite IH; reflexivity.
Qed.

(** C2, as the code has it. Of an alert log whose records are well formed,
    [get_alert_summary] counts every record in [total_alerts] and, by what
    [str.upper] makes of its severity, in the bucket of that name or in
    none; no string makes it raise. Nothing is assumed of [str.upper]: the
    counts are those of the severities as the interpreter upper-cases them.
    When these are HIGH, HIGH, MEDIUM, LOW, UNKNOWN the counts are 5, 2, 1
    and 1. *)
Theorem C2_summary_counts (e : env) (w : world) :
  let rs := parsed (lines_of AlertsLog w) in
  let up := str_upper e in
  forallb well_formed rs = true ->
  exists s,
    run e get_alert_summary w = (Ok s, w)
    /\ total_alerts s = Z.of_nat (length rs)
    /\ high_severity s = count_where (has_severity up "HIGH") rs
    /\ medium_severity s = count_where (has_severity up "MEDIUM") rs
    /\ low_severity s = count_where (has_severity up "LOW") rs
    /\ total_alerts s
       = (high_severity s + medium_severity s + low_severity s
          + count_where (other_severity up) rs)%Z
    /\ (map (severity_of up) rs = ["HIGH"; "HIGH"; "MEDIUM"; "LOW"; "UNKNOWN"] ->
        total_alerts s = 5%Z /\ high_severity s = 2%Z
        /\ medium_severity s = 1%Z /\ low_severity s = 1%Z).
Proof.
  cbv zeta. intros Hwf.
  destruct (get_alert_summary_run e w Hwf) as (s & Hrun & Ht & Hh & Hm & Hl & _ & _).
  exists s. split; [exact Hrun |].
  repeat split; try assumption.
  - rewrite Ht, Hh, Hm, Hl. apply count_partition.
  - rewrite Ht, <- (length_map (severity_of (str_upper e))), H. reflexivity.
  - rewrite Hh, count_where_severity, H. reflexivity.
  - rewrite Hm, count_where_severity, H. reflexivity.
  - rewrite Hl, count_where_severity, H. reflexivity.
Qed.

(** C3, as the code has it. Of an alert log whose records are well formed,
    [last_alert] is a record of greatest epoch, and the first of the log to
    have that epoch; it is [None] only when no record parses. *)
Theorem C3_last_alert (e : env) (w : world) :
  let rs := parsed (lines_of AlertsLog w) in
  forallb well_formed rs = true ->
  exists s,
    run e get_alert_summary w = (Ok s, w)
    /\ match last_alert s with
       | None => rs = []
       | Some r => first_latest rs r
       end.
Proof.
  cbv zeta. intros Hwf.
  destruct (get_alert_summary_run e w Hwf) as (s & Hrun & _ & _ & _ & _ & _ & Hlast).
  exists s. split; assumption.
Qed.

(** ** The export *)

Lemma export_logs_run (output_file : string) (hours : Z) (e : env) (w : world) :
  forallb well_formed (parsed (lines_of AlertsLog w)) = true ->
  forallb well_formed (parsed (lines_of ActivityLog w)) = true ->
  export_exc e = None ->
  exists w',
    run e (export_logs output_file hours) w = (Ok tt, w')
    /\ exports w' =
         (output_file,
          exported_data (clock_iso e 1) hours
            (filter (in_window (clock_epoch e 0) hours) (parsed (lines_of AlertsLog w)))
            (filter (in_window (clock_epoch e 0) hours) (parsed (lines_of ActivityLog w)))
            [])
         :: exports w.
Proof.
  intros Ha Hb Hx.
  unfold run, export_logs, bind, time_time, datetime_now_isoformat, scan_log.
  rewrite !for_lines_keep_recent by assumption.
  unfold file_write_json. rewrite Hx.
  match goal with
  | |- context [log_info ?m ?d e ?n ?w0] =>
      destruct (log_info_run m d e n w0) as (w' & Hrun & _ & _ & _ & _ & _ & He & _)
  end.
  rewrite Hrun. exists w'. split; [reflexivity |]. rewrite He. reflexivity.
Qed.

(** C5, at a store that holds one record of each kind inside the window:
    the exported document has the five fields, its [alerts] and
    [activities] hold the records of the two logs, and its [errors]
    sequence is empty although the error log is not. *)
Theorem C5_errors_not_exported :
  parsed (lines_of ErrorLog errors_world) = [honeypot_error]
  /\ in_window 1000 24 honeypot_error = true
  /\ exports (snd (run (env_at 1000) (export_logs "export.json" 24) errors_world))
     = [("export.json",
         JDict [("export_timestamp", JStr "2024-05-01T12:00:00");
                ("hours_exported", JNum 24);
                ("alerts", JList [canary_entry 980]);
                ("activities", JList [startup_info; canary_entry 980]);
                ("errors", JList [])])].
Proof. repeat split. Qed.

(** ** Malformed lines *)

(** C8, as the code has it. Of a log with one line on which [json.loads]
    raises [JSONDecodeError] between two well-formed records, every read
    pass sees the two records and nothing else, and none raises:
    [get_recent_alerts] and [export_logs] return those of the two that lie
    in the window, and [get_alert_summary] counts two alerts, the line in
    no bucket. A line on which [json.loads] raises anything else is not
    skipped: each of the three read passes raises that exception and
    returns nothing. *)
Theorem C8_corruption_tolerance (r1 r2 : json) (text : string) (e : env) (w : world)
    (hours : Z) (output_file : string) :
  well_formed r1 = true ->
  well_formed r2 = true ->
  alerts_log w = Some [json_dumps_nl r1; Garbage text; json_dumps_nl r2] ->
  activity_log w = Some [json_dumps_nl r1; Garbage text; json_dumps_nl r2] ->
  let recent := filter (in_window (clock_epoch e 0) hours) [r1; r2] in
  run e (get_recent_alerts hours) w = (Ok recent, w)
  /\ (in_window (clock_epoch e 0) hours r1 = true ->
      in_window (clock_epoch e 0) hours r2 = true -> recent = [r1; r2])
  /\ (exists s,
        run e get_alert_summary w = (Ok s, w)
        /\ summarises (str_upper e) (cutoff (clock_epoch e 0) 24) [r1; r2] s
        /\ total_alerts s = 2%Z
        /\ (high_severity s + medium_severity s + low_severity s <= 2)%Z)
  /\ (export_exc e = None ->
      exists w',
        run e (export_logs output_file hours) w = (Ok tt, w')
        /\ exports w' =
             (output_file, exported_data (clock_iso e 1) hours recent recent [])
             :: exports w)
  /\ (forall (x : exn) (w0 : world),
        alerts_log w0 = Some [json_dumps_nl r1; Unreadable x; json_dumps_nl r2] ->
        run e (get_recent_alerts hours) w0 = (Raise x, w0)
        /\ run e get_alert_summary w0 = (Raise x, w0)
        /\ run e (export_logs output_file hours) w0 = (Raise x, w0)).
Proof.
  intros H1 H2 Ha Hb. cbv zeta.
  assert (Hpa : parsed (lines_of AlertsLog w) = [r1; r2])
    by (unfold lines_of; simpl log_of; rewrite Ha; reflexivity).
  assert (Hpb : parsed (lines_of ActivityLog w) = [r1; r2])
    by (unfold lines_of; simpl log_of; rewrite Hb; reflexivity).
  assert (Hwf : forallb well_formed [r1; r2] = true)
    by (simpl; rewrite H1, H2; reflexivity).
  split; [| split; [| split; [| split]]].
  - rewrite get_recent_alerts_run; rewrite Hpa; [reflexivity | exact Hwf].
  - intros Hw1 Hw2. simpl. rewrite Hw1, Hw2. reflexivity.
  - destruct (get_alert_summary_run e w) as (s & Hrun & Hs); [rewrite Hpa; exact Hwf |].
    rewrite Hpa in Hs. exists s. split; [exact Hrun |]. split; [exact Hs |].
    destruct Hs as (Ht & Hh & Hm & Hl & _).
    split; [exact Ht |].
    pose proof (count_partition (str_upper e) [r1; r2]) as Hp. simpl length in Hp.
    rewrite <- Hh, <- Hm, <- Hl in Hp.
    assert (0 <= count_where (other_severity (str_upper e)) [r1; r2])%Z
      by (unfold count_where; lia).
    lia.
  - intros Hx.
    destruct (export_logs_run output_file hours e w) as (w' & Hrun & He);
      rewrite ?Hpa, ?Hpb; try assumption.
    exists w'. split; [exact Hrun |]. rewrite He, Hpa, Hpb. reflexivity.
  - intros x w0 H0.
    assert (Hl : lines_of AlertsLog w0
                 = [json_dumps_nl r1; Unreadable x; json_dumps_nl r2])
      by (unfold lines_of; simpl log_of; rewrite H0; reflexivity).
    split; [| split].
    + unfold run, get_recent_alerts, bind, time_time, scan_log. rewrite Hl.
      cbn [for_lines json_loads_strip json_dumps_nl].
      rewrite (keep_recent_well_formed _ _ r1 H1). reflexivity.
    + unfold run, get_alert_summary, bind, time_time, ask, scan_log. rewrite Hl.
      cbn [for_lines json_loads_strip json_dumps_nl].
      rewrite (summarize_well_formed _ _ _ r1 H1) by (intros l El; discriminate El).
      reflexivity.
    + unfold run, export_logs, bind, time_time, datetime_now_isoformat, scan_log.
      rewrite Hl. cbn [for_lines json_loads_strip json_dumps_nl].
      rewrite (keep_recent_well_formed _ _ r1 H1). reflexivity.
Qed.

(** ** The theorems at concrete stores *)

(** In a store with a lower-case severity the record is counted as HIGH. *)
Lemma C2_lowercase_counted :
  in_strings "high" ["HIGH"; "MEDIUM"; "LOW"] = false
  /\ parsed (lines_of AlertsLog lowercase_world) = [severity_record "high" 50]
  /\ fst (run (env_at 100) get_alert_summary lowercase_world)
     = Ok (mkSummary 1 1 0 0 1 (Some (severity_record "high" 50))).
Proof. repeat split. Qed.

(** A severity that is not a string makes the summary raise. *)
Example null_severity_raises :
  fst (run (env_at 100) get_alert_summary
         (world_of_alerts [json_dumps_nl null_severity_record]))
  = Raise (AttributeError "object has no attribute 'upper'").
Proof. reflexivity. Qed.

Lemma C2_summary_counts_witness :
  exists s,
    run (env_at 100) get_alert_summary severity_world = (Ok s, severity_world)
    /\ total_alerts s = 5%Z /\ high_severity s = 2%Z
    /\ medium_severity s = 1%Z /\ low_severity s = 1%Z.
Proof.
  destruct (C2_summary_counts (env_at 100) severity_world eq_refl)
    as (s & Hrun & _ & _ & _ & _ & _ & Hex).
  exists s. split; [exact Hrun | exact (Hex eq_refl)].
Defined.

(** Of two records with the same, greatest epoch the summary keeps the
    earlier one, although the later one is the last to have that epoch. *)
Lemma C3_first_wins_on_ties :
  parsed (lines_of AlertsLog tie_world) = [tie_first; tie_second]
  /\ epoch_of tie_first = epoch_of tie_second
  /\ fst (run (env_at 100) get_alert_summary tie_world)
     = Ok (mkSummary 2 1 1 0 2 (Some tie_first))
  /\ last_latest [tie_first; tie_second] tie_second
  /\ tie_first <> tie_second.
Proof.
  split; [reflexivity |]. split; [reflexivity |]. split; [reflexivity |].
  split; [| discriminate].
  exists 1%nat. split; [reflexivity |]. split.
  - intros r' [<- | [<- | []]]; apply Qle_refl.
  - intros [| [| j]] r' Hj Hnth; try lia; destruct j; discriminate Hnth.
Qed.

Lemma C3_last_alert_witness :
  exists s,
    run (env_at 100) get_alert_summary tie_world = (Ok s, tie_world)
    /\ match last_alert s with
       | None => parsed (lines_of AlertsLog tie_world) = []
       | Some r => first_latest (parsed (lines_of AlertsLog tie_world)) r
       end.
Proof. exact (C3_last_alert (env_at 100) tie_world eq_refl). Defined.

(** One line that [json.loads] cannot take without a [RecursionError] makes
    every read pass raise, although the two records around it are well
    formed. *)
Lemma C8_other_exception_aborts :
  forallb well_formed [severity_record "HIGH" 80; severity_record "LOW" 90] = true
  /\ run (env_at 100) (get_recent_alerts 24) nested_world
     = (Raise recursion_error, nested_world)
  /\ run (env_at 100) get_alert_summary nested_world
     = (Raise recursion_error, nested_world)
  /\ run (env_at 100) (export_logs "export.json" 24) nested_world
     = (Raise recursion_error, nested_world).
Proof. repeat split. Qed.

Lemma C8_corruption_tolerance_witness :
  run (env_at 100) (get_recent_alerts 24) corrupt_world
  = (Ok [severity_record "HIGH" 80; severity_record "LOW" 90], corrupt_world)
  /\ exists s,
       run (env_at 100) get_alert_summary corrupt_world = (Ok s, corrupt_world)
       /\ total_alerts s = 2%Z.
Proof.
  destruct (C8_corruption_tolerance
              (severity_record "HIGH" 80) (severity_record "LOW" 90)
              "{timestamp: 2024-05-01T12:0" (env_at 100) corrupt_world 24 "export.json"
              eq_refl eq_refl eq_refl eq_refl)
    as (Hrecent & _ & (s & Hrun & _ & Htotal & _) & _ & _).
  split; [exact Hrecent |].
  exists s. split; [exact Hrun | exact Htotal].
Defined.

Lemma C1_recent_alerts_witness :
  exact_cutoff 10000 24
  /\ exact_cutoff 10000 1
  /\ exists alerts,
       run (env_at 10000) (get_recent_alerts 24)
           (append_all [(env_at 9000, canary_alert); (env_at 9500, Info "tick" None);
                        (env_at 9900, canary_alert)] (new_store (env_at 0)))
       = (Ok alerts,
          append_all [(env_at 9000, canary_alert); (env_at 9500, Info "tick" None);
                      (env_at 9900, canary_alert)] (new_store (env_at 0)))
       /\ alerts = [canary_entry 9000; canary_entry 9900]
       /\ fst (run (env_at 10000) (get_recent_alerts 1)
                 (append_all [(env_at (10000 - 3601), canary_alert);
                              (env_at (10000 - 3599), canary_alert);
                              (env_at 10000, canary_alert)] (new_store (env_at 0))))
          = Ok [canary_entry (10000 - 3599); canary_entry 10000].
Proof.
  assert (H24 : exact_cutoff 10000 24).
  { split; [| split].
    - exists 10000%Z, 0%Z. repeat split; try lia; reflexivity.
    - exists 86400%Z, 0%Z. repeat split; try lia; reflexivity.
    - exists (-76400)%Z, 0%Z. repeat split; try lia; reflexivity. }
  assert (H1 : exact_cutoff 10000 1).
  { split; [| split].
    - exists 10000%Z, 0%Z. repeat split; try lia; reflexivity.
    - exists 3600%Z, 0%Z. repeat split; try lia; reflexivity.
    - exists 6400%Z, 0%Z. repeat split; try lia; reflexivity. }
  split; [exact H24 |]. split; [exact H1 |].
  destruct (C1_recent_alerts (env_at 0)
              [(env_at 9000, canary_alert); (env_at 9500, Info "tick" None);
               (env_at 9900, canary_alert)] (env_at 10000) 24 H24)
    as (alerts & Hrun & Hkeep & _ & _ & _ & Hex).
  exists alerts. split; [exact Hrun |]. split.
  - rewrite (Hkeep (fun r => Qgtb (epoch_of r) (-76400))).
    + reflexivity.
    + intros r. rewrite Qgtb_true. reflexivity.
  - exact (Hex 10000 H1).
Defined.

Lemma C4_classification_witness :
  exists w',
    run (env_at 100) (on_any_event (mkEvent false "opened" "/home/u/.ssh/id_rsa" ""))
        fresh_world
    = (Ok tt, w')
    /\ parsed (lines_of AlertsLog w')
       = [alert_at (env_at 100) 1 "HIGH" access_message
            (access_details (env_at 100)
               (mkDetails "opened" "/home/u/.ssh/id_rsa" 100 example_sysinfo))].
Proof.
  destruct (proj1 (C4_classification (env_at 100) fresh_world "/home/u/.ssh/id_rsa" "")
              "opened" (or_introl eq_refl)) as (w' & Hrun & Ha).
  exists w'. split; [exact Hrun |]. rewrite Ha. reflexivity.
Defined.

(** An alert on a file with an accented name, on a console whose encoding is
    ASCII: the line of the hook that shows the details cannot be printed,
    and [log_alert] raises the [UnicodeEncodeError] to its caller; the
    alert is in both logs, the error log is empty. *)
Lemma C6_console_failure_propagates :
  exists w',
    run (env_at 100) (log_alert_on ascii_console "HIGH" "CANARY TRIGGERED" accented_details)
        fresh_world
    = (Raise (ValueError "'ascii' codec can't encode character: ordinal not in range(128)"),
       w')
    /\ parsed (lines_of AlertsLog w')
       = [alert_entry "2024-05-01T12:00:00" "HIGH" "CANARY TRIGGERED" accented_details 100]
    /\ parsed (lines_of ActivityLog w')
       = [alert_entry "2024-05-01T12:00:00" "HIGH" "CANARY TRIGGERED" accented_details 100]
    /\ parsed (lines_of ErrorLog w') = []
    /\ shell w' = [].
Proof. eexists. repeat split. Qed.

Lemma C6_high_priority_hook_witness :
  exists w',
    run (env_notify_fails 100) (log_alert "HIGH" "CANARY TRIGGERED" "File: id_rsa") fresh_world
    = (Ok tt, w')
    /\ parsed (lines_of ErrorLog w')
       = [error_entry "2024-05-01T12:00:00"
            "Failed to send system notification: notify-send: not found" "" 100].
Proof.
  destruct (proj1 (C6_high_priority_hook "HIGH" "CANARY TRIGGERED" "File: id_rsa"
                     (env_notify_fails 100) fresh_world))
    as (w' & Hrun & _ & _ & _ & Herr).
  exists w'. split; [exact Hrun |].
  rewrite (Herr (OSError "notify-send: not found") eq_refl eq_refl eq_refl).
  reflexivity.
Defined.

Lemma C9_stop_idempotent_witness :
  exists self1 w1,
    run (env_at 100) (FileWatcher_stop (mkFileWatcher "canary_tokens" ObserverStarted true))
        fresh_world
    = (Ok self1, w1)
    /\ fw_is_running self1 = false
    /\ run (env_at 200) (FileWatcher_stop self1) w1 = (Ok self1, w1).
Proof.
  destruct (proj1 C9_stop_idempotent
              (mkFileWatcher "canary_tokens" ObserverStarted true)
              (env_at 100) (env_at 200) fresh_world eq_refl)
    as (self1 & w1 & Hrun & Hflag & _ & _ & Hagain).
  exists self1, w1. repeat split; assumption.
Defined.

Lemma C10_audit_trail_witness :
  incl (parsed (lines_of AlertsLog
                  (append_all [(env_at 5, canary_alert); (env_at 6, Info "tick" None)]
                              (new_store (env_at 0)))))
       (parsed (lines_of ActivityLog
                  (append_all [(env_at 5, canary_alert); (env_at 6, Info "tick" None)]
                              (new_store (env_at 0))))).
Proof.
  apply (C10_audit_trail [(env_at 5, canary_alert); (env_at 6, Info "tick" None)]
           (new_store (env_at 0))).
  - intros e ev [H | [H | []]] _; inversion H; reflexivity.
  - intros r [].
Defined.

(** ** Remarks on what the theorems leave open *)

(** [_write_to_log] swallows the exception of a write: when only the write
    to the activity log raises, [log_alert] returns normally and the alert
    is in the alerts log alone, so the alerts log is no longer within the
    activity log. *)
Lemma C10_activity_write_failure :
  exists w',
    run (env_activity_fails 100) (append canary_alert) (new_store (env_at 0)) = (Ok tt, w')
    /\ parsed (lines_of AlertsLog w') = [canary_entry 100]
    /\ parsed (lines_of ActivityLog w')
       = [info_entry "2024-05-01T12:00:00" "AlertLogger initialized" (JDict []) 0]
    /\ console w'
       = ["Error writing to log logs/activity.log: No space left on device"]
         ++ hook_console "2024-05-01T12:00:00" "CANARY TRIGGERED - File Access Detected!"
                         "File: id_rsa".
Proof. eexists. repeat split. Qed.

(** The second [stop] of a network monitor writes its INFO record again. *)
Remark network_monitor_stop_logs_again :
  let stop e w := snd (run e (NetworkMonitor_stop (mkNetworkMonitor true [SshHoneypotThread])) w) in
  List.length (lines_of ActivityLog (stop (env_at 2) (stop (env_at 1) fresh_world))) = 2%nat.
Proof. reflexivity. Qed.

(** A failing [send] leaves the client socket unclosed; the loop still goes
    on. *)
Remark send_failure_skips_close :
  socket_trace "10.0.0.7" 51000 (Some (OSError "Broken pipe")) None = [].
Proof. reflexivity. Qed.

(** An unexpected exception of [accept] is logged while the monitor runs
    and ends the loop, which closes the listening socket. *)
Remark accept_failure_ends_loop :
  let t := mkTurn true (env_at 100) (AcceptRaises (OSError "Bad file descriptor")) true in
  fst (accept_loop [t; t] fresh_world) = Exited
  /\ net (snd (accept_loop [t; t] fresh_world)) = [NetCloseListener]
  /\ parsed (lines_of ErrorLog (snd (accept_loop [t; t] fresh_world)))
     = [error_entry "2024-05-01T12:00:00" "SSH honeypot error: Bad file descriptor" "" 100].
Proof. repeat split. Qed.

(** A timeout of [accept] is not an error: the loop tests its flag again. *)
Remark accept_timeout_continues :
  accept_loop [mkTurn true (env_at 100) (AcceptRaises SocketTimeout) true;
               mkTurn false (env_at 101) (AcceptRaises SocketTimeout) false] fresh_world
  = (Exited, set_net [NetCloseListener] fresh_world).
Proof. reflexivity. Qed.

(** The base class of the handler (watchdog, outside the repository) hands
    an event to [on_any_event] and then to the handler of its type; the two
    calls leave two alerts for one event. *)
Remark any_event_then_typed_handler :
  let ev := mkEvent false "modified" "/home/u/.aws/credentials" "" in
  List.length
    (lines_of AlertsLog
       (snd (run (env_at 100) (bind (on_any_event ev) (fun _ => on_modified ev)) fresh_world)))
  = 2%nat.
Proof. reflexivity. Qed.

(** * Further properties of the code *)

(** ** AlertLogger: construction and the plain writers *)

(** Building an [AlertLogger] over a directory that already holds logs
    keeps every line of them: the three files exist afterwards, the alerts
    and error logs are as they were, and the activity log has gained the
    one INFO record of the start-up. *)
Theorem init_keeps_existing_logs (e : env) (w : world) :
  exists w',
    run e AlertLogger_init w = (Ok tt, w')
    /\ lines_of AlertsLog w' = lines_of AlertsLog w
    /\ lines_of ErrorLog w' = lines_of ErrorLog w
    /\ lines_of ActivityLog w' =
         lines_of ActivityLog w
         ++ written e ActivityLog (info_at e 0 "AlertLogger initialized" None)
    /\ log_exists AlertsLog w' = true
    /\ log_exists ActivityLog w' = true
    /\ log_exists ErrorLog w' = true
    /\ exports w' = exports w /\ shell w' = shell w /\ net w' = net w.
Proof.
  destruct w as [a b c x co sh ne].
  unfold run, AlertLogger_init, bind, touch, log_info, datetime_now_isoformat, time_time,
    _write_to_log, try_except, file_append, ask, print, written, info_at, log_exists.
  destruct (write_exc e ActivityLog) eqn:E; destruct a, b, c;
    cbn; rewrite E; cbn; eexists; (split; [reflexivity |]);
    cbn; rewrite ?app_nil_r; repeat split.
Qed.

(** On a console that takes every line, [log_info] and [log_error] return
    normally whether their write goes through or raises. A write that goes
    through adds the record at the end of one log, the activity log for
    [log_info] and the error log for [log_error]; in every case the two
    other logs are as before, and a write that raises is reported on the
    console. *)
Theorem plain_writers_touch_one_log (message : string) (details : option json)
    (error_details : string) (e : env) (w : world) :
  (exists w',
      run e (log_info message details) w = (Ok tt, w')
      /\ (write_exc e ActivityLog = None ->
          lines_of ActivityLog w' =
            lines_of ActivityLog w
            ++ [json_dumps_nl
                  (JDict [("timestamp", JStr (clock_iso e 0)); ("type", JStr "INFO");
                          ("message", JStr message);
                          ("details", details_or_empty details);
                          ("epoch", JNum (clock_epoch e 1))])])
      /\ alerts_log w' = alerts_log w /\ error_log w' = error_log w
      /\ console w' = console w ++ write_error_lines e ActivityLog)
  /\ (exists w',
        run e (log_error message error_details) w = (Ok tt, w')
        /\ (write_exc e ErrorLog = None ->
            lines_of ErrorLog w' =
              lines_of ErrorLog w
              ++ [json_dumps_nl
                    (JDict [("timestamp", JStr (clock_iso e 0)); ("type", JStr "ERROR");
                            ("message", JStr message); ("details", JStr error_details);
                            ("epoch", JNum (clock_epoch e 1))])])
        /\ alerts_log w' = alerts_log w /\ activity_log w' = activity_log w
        /\ console w' = console w ++ write_error_lines e ErrorLog).
Proof.
  destruct (log_info_run message details e O w) as (w1 & Hrun1 & Hl1 & Ha1 & He1 & Hc1 & _).
  destruct (log_error_run message error_details e O w)
    as (w2 & Hrun2 & Hl2 & Ha2 & Hb2 & Hc2 & _).
  split.
  - exists w1. split; [apply (run_eq _ _ _ _ _ _ Hrun1) |]. repeat split; try assumption.
    intros Hx. rewrite Hl1. unfold written. rewrite Hx. reflexivity.
  - exists w2. split; [apply (run_eq _ _ _ _ _ _ Hrun2) |]. repeat split; try assumption.
    intros Hx. rewrite Hl2. unfold written. rewrite Hx. reflexivity.
Qed.

(** ** AlertLogger: the readers at the edges *)

Lemma for_lines_app {A} (body : A -> json -> result A) (ls1 ls2 : list line) (acc : A) :
  for_lines body (ls1 ++ ls2) acc
  = match for_lines body ls1 acc with
    | Ok acc' => for_lines body ls2 acc'
    | Raise x => Raise x
    end.
Proof.
  revert acc. induction ls1 as [| l ls1 IH]; intros acc; [reflexivity |].
  simpl. destruct (json_loads_strip l) as [[r |] | x]; [| apply IH | reflexivity].
  destruct (body acc r); [apply IH | reflexivity].
Qed.

Lemma lines_of_alerts (w : world) (ls : list line) :
  alerts_log w = Some ls -> lines_of AlertsLog w = ls.
Proof. unfold lines_of. simpl. intros ->. reflexivity. Qed.

Lemma lines_of_missing (f : logfile) (w : world) : log_of f w = None -> lines_of f w = [].
Proof. unfold lines_of. intros ->. reflexivity. Qed.

(** Where the alerts log and the activity log do not exist, the readers
    behave as on empty logs: no alert, the summary of nothing, and an
    export whose three sequences are empty. *)
Theorem readers_on_missing_logs (e : env) (w : world) (hours : Z) (output_file : string) :
  alerts_log w = None ->
  activity_log w = None ->
  run e (get_recent_alerts hours) w = (Ok [], w)
  /\ run e get_alert_summary w = (Ok empty_summary, w)
  /\ (export_exc e = None ->
      exists w',
        run e (export_logs output_file hours) w = (Ok tt, w')
        /\ exports w' = (output_file, exported_data (clock_iso e 1) hours [] [] []) :: exports w).
Proof.
  intros Ha Hb.
  assert (Hla : lines_of AlertsLog w = []) by (apply lines_of_missing; exact Ha).
  assert (Hlb : lines_of ActivityLog w = []) by (apply lines_of_missing; exact Hb).
  split; [| split].
  - unfold run, get_recent_alerts, bind, time_time, scan_log. rewrite Hla. reflexivity.
  - unfold run, get_alert_summary, bind, time_time, ask, scan_log. rewrite Hla. reflexivity.
  - intros Hx.
    destruct (export_logs_run output_file hours e w) as (w' & Hrun & He);
      rewrite ?Hla, ?Hlb; try reflexivity; try assumption.
    exists w'. split; [exact Hrun |]. rewrite He, Hla, Hlb. reflexivity.
Qed.

Lemma readers_on_missing_logs_witness :
  run (env_at 100) (get_recent_alerts 24) fresh_world = (Ok [], fresh_world)
  /\ run (env_at 100) get_alert_summary fresh_world = (Ok empty_summary, fresh_world).
Proof.
  destruct (readers_on_missing_logs (env_at 100) fresh_world 24 "export.json" eq_refl eq_refl)
    as (H1 & H2 & _).
  split; assumption.
Defined.

(** A line that parses, but not to a JSON object, is not skipped: the scan
    stops there with an [AttributeError], in [get_recent_alerts], in
    [get_alert_summary] and in [export_logs], which then writes nothing. *)
Theorem non_object_line_aborts_scan (ls1 ls2 : list line) (v : json) (e : env) (w : world)
    (hours : Z) (output_file : string) :
  forallb well_formed (parsed ls1) = true ->
  is_dict v = false ->
  alerts_log w = Some (ls1 ++ json_dumps_nl v :: ls2) ->
  let x := AttributeError "object has no attribute 'get'" in
  run e (get_recent_alerts hours) w = (Raise x, w)
  /\ run e get_alert_summary w = (Raise x, w)
  /\ run e (export_logs output_file hours) w = (Raise x, w).
Proof.
  intros Hwf Hv Ha. cbv zeta.
  pose proof (lines_of_alerts w _ Ha) as Hl.
  assert (Hkeep : forall c,
             for_lines (keep_recent c) (ls1 ++ json_dumps_nl v :: ls2) []
             = Raise (AttributeError "object has no attribute 'get'")).
  { intros c. rewrite for_lines_app, for_lines_keep_recent by exact Hwf.
    destruct v; try discriminate Hv; reflexivity. }
  split; [| split].
  - unfold run, get_recent_alerts, bind, time_time, scan_log. rewrite Hl, Hkeep. reflexivity.
  - unfold run, get_alert_summary, bind, time_time, ask, scan_log. rewrite Hl, for_lines_app.
    destruct (for_lines_summarize (str_upper e) (cutoff (clock_epoch e 0) 24) ls1 []
                empty_summary eq_refl Hwf (summarises_empty _ _)) as (s & Hrun & _).
    rewrite Hrun. destruct v; try discriminate Hv; reflexivity.
  - unfold run, export_logs, bind, time_time, datetime_now_isoformat, scan_log.
    rewrite Hl, Hkeep. reflexivity.
Qed.

Lemma non_object_line_aborts_scan_witness :
  run (env_at 100) (get_recent_alerts 24)
      (world_of_alerts [json_dumps_nl (severity_record "HIGH" 80); json_dumps_nl (JNum 42);
                        json_dumps_nl (severity_record "LOW" 90)])
  = (Raise (AttributeError "object has no attribute 'get'"),
     world_of_alerts [json_dumps_nl (severity_record "HIGH" 80); json_dumps_nl (JNum 42);
                      json_dumps_nl (severity_record "LOW" 90)]).
Proof.
  exact (proj1 (non_object_line_aborts_scan
                  [json_dumps_nl (severity_record "HIGH" 80)]
                  [json_dumps_nl (severity_record "LOW" 90)] (JNum 42) (env_at 100)
                  (world_of_alerts
                     [json_dumps_nl (severity_record "HIGH" 80); json_dumps_nl (JNum 42);
                      json_dumps_nl (severity_record "LOW" 90)])
                  24 "export.json" eq_refl eq_refl eq_refl)).
Defined.

(** A record whose epoch is neither a number nor a boolean (a string,
    [null], a list, an object) stops [get_recent_alerts] with a
    [TypeError]. *)
Theorem non_numeric_epoch_aborts_scan (ls1 ls2 : list line) (d : list (string * json))
    (e : env) (w : world) (hours : Z) :
  forallb well_formed (parsed ls1) = true ->
  as_number (dict_get d "epoch" (JNum 0)) = None ->
  alerts_log w = Some (ls1 ++ json_dumps_nl (JDict d) :: ls2) ->
  run e (get_recent_alerts hours) w
  = (Raise (TypeError "'>' not supported between instances"), w).
Proof.
  intros Hwf Hd Ha.
  unfold run, get_recent_alerts, bind, time_time, scan_log.
  rewrite (lines_of_alerts w _ Ha), for_lines_app, for_lines_keep_recent by exact Hwf.
  simpl for_lines. unfold keep_recent. cbn [py_get rbind]. unfold py_gt. rewrite Hd.
  destruct (dict_get d "epoch" (JNum 0)); reflexivity.
Qed.

Lemma non_numeric_epoch_aborts_scan_witness :
  run (env_at 100) (get_recent_alerts 24)
      (world_of_alerts [json_dumps_nl (JDict [("epoch", JStr "yesterday")])])
  = (Raise (TypeError "'>' not supported between instances"),
     world_of_alerts [json_dumps_nl (JDict [("epoch", JStr "yesterday")])]).
Proof.
  exact (non_numeric_epoch_aborts_scan [] [] [("epoch", JStr "yesterday")] (env_at 100)
           (world_of_alerts [json_dumps_nl (JDict [("epoch", JStr "yesterday")])])
           24 eq_refl eq_refl eq_refl).
Defined.

(** ** AlertLogger: windows, counts and the export *)

Lemma filter_filter_implies {A} (p q : A -> bool) (xs : list A) :
  (forall x, p x = true -> q x = true) -> filter p (filter q xs) = filter p xs.
Proof.
  intros H. induction xs as [| x xs IH]; [reflexivity |].
  simpl. destruct (q x) eqn:Eq; simpl.
  - rewrite IH. reflexivity.
  - destruct (p x) eqn:Ep; [| exact IH].
    rewrite (H x Ep) in Eq. discriminate.
Qed.

Lemma in_window_wider (now : Q) (h1 h2 : Z) (r : json) :
  (h1 <= h2)%Z -> in_window now h1 r = true -> in_window now h2 r = true.
Proof.
  unfold in_window, cutoff. intros Hh H. apply Qgtb_true in H. apply Qgtb_true.
  assert (inject_Z (h1 * 3600) <= inject_Z (h2 * 3600))%Q by (rewrite <- Zle_Qle; lia).
  lra.
Qed.

(** Read at the same instant, a narrower window returns exactly those
    alerts of the wider window that lie inside it: widening the window
    never loses an alert and never reorders. *)
Theorem narrower_window_filters_wider (e : env) (w : world) (h1 h2 : Z) :
  forallb well_formed (parsed (lines_of AlertsLog w)) = true ->
  (h1 <= h2)%Z ->
  exists l1 l2,
    run e (get_recent_alerts h1) w = (Ok l1, w)
    /\ run e (get_recent_alerts h2) w = (Ok l2, w)
    /\ l1 = filter (in_window (clock_epoch e 0) h1) l2
    /\ incl l1 l2.
Proof.
  intros Hwf Hh.
  do 2 eexists. split; [apply get_recent_alerts_run, Hwf |].
  split; [apply get_recent_alerts_run, Hwf |].
  assert (Heq : filter (in_window (clock_epoch e 0) h1) (parsed (lines_of AlertsLog w))
                = filter (in_window (clock_epoch e 0) h1)
                    (filter (in_window (clock_epoch e 0) h2) (parsed (lines_of AlertsLog w)))).
  { symmetry. apply filter_filter_implies. intros r. apply in_window_wider, Hh. }
  split; [exact Heq |].
  rewrite Heq. apply incl_filter.
Qed.

Lemma narrower_window_filters_wider_witness :
  exists l1 l2,
    run (env_at 7200) (get_recent_alerts 1) severity_world = (Ok l1, severity_world)
    /\ run (env_at 7200) (get_recent_alerts 24) severity_world = (Ok l2, severity_world)
    /\ incl l1 l2.
Proof.
  destruct (narrower_window_filters_wider (env_at 7200) severity_world 1 24 eq_refl)
    as (l1 & l2 & H1 & H2 & _ & Hincl); [lia |].
  exists l1, l2. repeat split; assumption.
Defined.

Lemma count_where_bounds (p : json -> bool) (rs : list json) :
  (0 <= count_where p rs <= Z.of_nat (length rs))%Z.
Proof.
  unfold count_where. pose proof (filter_length_le p rs). lia.
Qed.

(** The summary agrees with the window query: [last_24h] is the number of
    alerts [get_recent_alerts(24)] returns at the same instant. No counter
    is negative, the three buckets together never exceed [total_alerts],
    and neither does [last_24h]. *)
Theorem summary_agrees_with_recent (e : env) (w : world) :
  forallb well_formed (parsed (lines_of AlertsLog w)) = true ->
  exists s alerts,
    run e get_alert_summary w = (Ok s, w)
    /\ run e (get_recent_alerts 24) w = (Ok alerts, w)
    /\ last_24h s = Z.of_nat (length alerts)
    /\ (0 <= last_24h s <= total_alerts s)%Z
    /\ (0 <= high_severity s)%Z /\ (0 <= medium_severity s)%Z /\ (0 <= low_severity s)%Z
    /\ (high_severity s + medium_severity s + low_severity s <= total_alerts s)%Z.
Proof.
  intros Hwf.
  destruct (get_alert_summary_run e w Hwf) as (s & Hrun & Ht & Hh & Hm & Hl & H24 & _).
  exists s. eexists. split; [exact Hrun |].
  split; [apply get_recent_alerts_run, Hwf |].
  split; [exact H24 |].
  pose proof (count_partition (str_upper e) (parsed (lines_of AlertsLog w))) as Hp.
  rewrite Ht, Hh, Hm, Hl, H24.
  repeat split; try apply count_where_bounds.
  pose proof (count_where_bounds (other_severity (str_upper e))
                (parsed (lines_of AlertsLog w))). lia.
Qed.

Lemma summary_agrees_with_recent_witness :
  exists s alerts,
    run (env_at 100) get_alert_summary severity_world = (Ok s, severity_world)
    /\ run (env_at 100) (get_recent_alerts 24) severity_world = (Ok alerts, severity_world)
    /\ last_24h s = Z.of_nat (length alerts).
Proof.
  destruct (summary_agrees_with_recent (env_at 100) severity_world eq_refl)
    as (s & alerts & H1 & H2 & H3 & _).
  exists s, alerts. repeat split; assumption.
Defined.

Lemma dict_get_missing (d : list (string * json)) (key : string) (default : json) :
  has_key d key = false -> dict_get d key default = default.
Proof.
  induction d as [| [k v] d IH]; [reflexivity |].
  simpl. destruct (String.eqb k key); [discriminate | exact IH].
Qed.

(** A record without an [epoch] key is read as of epoch 0: it is returned
    only by a window that reaches behind the origin of time, that is when
    [hours * 3600] exceeds the current time. *)
Theorem record_without_epoch (d : list (string * json)) (e : env) (w : world) (hours : Z) :
  forallb well_formed (parsed (lines_of AlertsLog w)) = true ->
  In (JDict d) (parsed (lines_of AlertsLog w)) ->
  has_key d "epoch" = false ->
  exists alerts,
    run e (get_recent_alerts hours) w = (Ok alerts, w)
    /\ (In (JDict d) alerts <-> (clock_epoch e 0 < inject_Z (hours * 3600))%Q).
Proof.
  intros Hwf Hin Hk.
  eexists. split; [apply get_recent_alerts_run, Hwf |].
  rewrite filter_In. unfold in_window, epoch_of, cutoff.
  rewrite (dict_get_missing d "epoch" (JNum 0) Hk). cbn [as_number].
  rewrite Qgtb_true. split.
  - intros [_ H]. lra.
  - intros H. split; [exact Hin | lra].
Qed.

Lemma record_without_epoch_witness :
  exists alerts,
    run (env_at 100) (get_recent_alerts 24)
        (world_of_alerts [json_dumps_nl (JDict [("severity", JStr "HIGH")])])
    = (Ok alerts, world_of_alerts [json_dumps_nl (JDict [("severity", JStr "HIGH")])])
    /\ (In (JDict [("severity", JStr "HIGH")]) alerts
        <-> (clock_epoch (env_at 100) 0 < inject_Z (24 * 3600))%Q).
Proof.
  exact (record_without_epoch [("severity", JStr "HIGH")] (env_at 100)
           (world_of_alerts [json_dumps_nl (JDict [("severity", JStr "HIGH")])]) 24
           eq_refl (or_introl eq_refl) eq_refl).
Defined.

Lemma export_logs_effects (output_file : string) (hours : Z) (e : env) (w : world) :
  forallb well_formed (parsed (lines_of AlertsLog w)) = true ->
  forallb well_formed (parsed (lines_of ActivityLog w)) = true ->
  export_exc e = None ->
  exists w',
    run e (export_logs output_file hours) w = (Ok tt, w')
    /\ exports w' =
         (output_file,
          exported_data (clock_iso e 1) hours
            (filter (in_window (clock_epoch e 0) hours) (parsed (lines_of AlertsLog w)))
            (filter (in_window (clock_epoch e 0) hours) (parsed (lines_of ActivityLog w)))
            [])
         :: exports w
    /\ lines_of AlertsLog w' = lines_of AlertsLog w
    /\ lines_of ErrorLog w' = lines_of ErrorLog w
    /\ lines_of ActivityLog w' =
         lines_of ActivityLog w
         ++ written e ActivityLog (info_at e 2 ("Exported logs to " ++ output_file) None).
Proof.
  intros Ha Hb Hx.
  unfold run, export_logs, bind, time_time, datetime_now_isoformat, scan_log.
  rewrite !for_lines_keep_recent by assumption.
  unfold file_write_json. rewrite Hx.
  match goal with
  | |- context [log_info ?m ?d e ?n ?w0] =>
      destruct (log_info_run m d e n w0) as (w' & Hrun & Hl & Hal & Her & _ & _ & He & _)
  end.
  rewrite Hrun. exists w'. split; [reflexivity |].
  split; [rewrite He; reflexivity |].
  split; [apply lines_of_log_of in Hal; exact Hal |].
  split; [apply lines_of_log_of in Her; exact Her |].
  exact Hl.
Qed.

(** The [alerts] sequence of an export is what [get_recent_alerts] returns
    for the same window at the same instant. The export leaves the alerts
    and error logs as they are and adds to the activity log the one INFO
    record of the export itself, which is therefore not in the document. *)
Theorem export_agrees_with_recent (output_file : string) (hours : Z) (e : env) (w : world) :
  forallb well_formed (parsed (lines_of AlertsLog w)) = true ->
  forallb well_formed (parsed (lines_of ActivityLog w)) = true ->
  export_exc e = None ->
  exists w' alerts activities,
    run e (get_recent_alerts hours) w = (Ok alerts, w)
    /\ run e (export_logs output_file hours) w = (Ok tt, w')
    /\ exports w'
       = (output_file, exported_data (clock_iso e 1) hours alerts activities []) :: exports w
    /\ activities = filter (in_window (clock_epoch e 0) hours) (parsed (lines_of ActivityLog w))
    /\ lines_of AlertsLog w' = lines_of AlertsLog w
    /\ lines_of ErrorLog w' = lines_of ErrorLog w
    /\ lines_of ActivityLog w' =
         lines_of ActivityLog w
         ++ written e ActivityLog (info_at e 2 ("Exported logs to " ++ output_file) None).
Proof.
  intros Ha Hb Hx.
  destruct (export_logs_effects output_file hours e w Ha Hb Hx)
    as (w' & Hrun & He & Hal & Her & Hac).
  exists w'. do 2 eexists.
  split; [apply get_recent_alerts_run, Ha |].
  split; [exact Hrun |].
  split; [exact He |].
  repeat split; assumption.
Qed.

Lemma export_agrees_with_recent_witness :
  exists w' alerts activities,
    run (env_at 1000) (get_recent_alerts 24) errors_world = (Ok alerts, errors_world)
    /\ run (env_at 1000) (export_logs "export.json" 24) errors_world = (Ok tt, w')
    /\ exports w'
       = [("export.json",
           exported_data "2024-05-01T12:00:00" 24 alerts activities [])].
Proof.
  destruct (export_agrees_with_recent "export.json" 24 (env_at 1000) errors_world
              eq_refl eq_refl eq_refl)
    as (w' & alerts & activities & H1 & H2 & H3 & _).
  exists w', alerts, activities. repeat split; assumption.
Defined.

(** When the output file cannot be written, [export_logs] raises that
    exception to its caller: it does not log the INFO record of an export,
    and the three logs and the console are as they were. *)
Theorem export_failure_reaches_caller (output_file : string) (hours : Z) (e : env)
    (w : world) (x : exn) :
  forallb well_formed (parsed (lines_of AlertsLog w)) = true ->
  forallb well_formed (parsed (lines_of ActivityLog w)) = true ->
  export_exc e = Some x ->
  let outcome := run e (export_logs output_file hours) w in
  fst outcome = Raise x
  /\ alerts_log (snd outcome) = alerts_log w
  /\ activity_log (snd outcome) = activity_log w
  /\ error_log (snd outcome) = error_log w
  /\ console (snd outcome) = console w.
Proof.
  intros Ha Hb Hx. cbv zeta.
  unfold run, export_logs, bind, time_time, datetime_now_isoformat, scan_log.
  rewrite !for_lines_keep_recent by assumption.
  unfold file_write_json. rewrite Hx. repeat split.
Qed.

Lemma export_failure_reaches_caller_witness :
  fst (run (env_export_fails 1000) (export_logs "export.json" 24) errors_world)
  = Raise (OSError "Permission denied: export.json")
  /\ activity_log (snd (run (env_export_fails 1000) (export_logs "export.json" 24)
                           errors_world))
     = activity_log errors_world.
Proof.
  destruct (export_failure_reaches_caller "export.json" 24 (env_export_fails 1000)
              errors_world (OSError "Permission denied: export.json")
              eq_refl eq_refl eq_refl) as (H1 & _ & H2 & _).
  split; [exact H1 | exact H2].
Defined.

(** While the records of the alerts log are among those of the activity
    log, every alert of an export is in its [activities] as well. *)
Theorem exported_alerts_repeat_in_activities (output_file : string) (hours : Z) (e : env)
    (w : world) :
  forallb well_formed (parsed (lines_of AlertsLog w)) = true ->
  forallb well_formed (parsed (lines_of ActivityLog w)) = true ->
  export_exc e = None ->
  incl (parsed (lines_of AlertsLog w)) (parsed (lines_of ActivityLog w)) ->
  exists w' alerts activities,
    run e (export_logs output_file hours) w = (Ok tt, w')
    /\ exports w'
       = (output_file, exported_data (clock_iso e 1) hours alerts activities []) :: exports w
    /\ incl alerts activities.
Proof.
  intros Ha Hb Hx Hincl.
  destruct (export_logs_effects output_file hours e w Ha Hb Hx) as (w' & Hrun & He & _).
  exists w'. do 2 eexists. split; [exact Hrun |]. split; [exact He |].
  intros r Hr. apply filter_In in Hr. destruct Hr as [Hin Hw].
  apply filter_In. split; [apply Hincl, Hin | exact Hw].
Qed.

Lemma exported_alerts_repeat_in_activities_witness :
  exists w' alerts activities,
    run (env_at 1000) (export_logs "export.json" 24) errors_world = (Ok tt, w')
    /\ exports w'
       = [("export.json", exported_data "2024-05-01T12:00:00" 24 alerts activities [])]
    /\ incl alerts activities.
Proof.
  apply (exported_alerts_repeat_in_activities "export.json" 24 (env_at 1000) errors_world
           eq_refl eq_refl eq_refl).
  intros r [<- | []]. right. left. reflexivity.
Defined.

(** ** CanaryFileHandler beyond the five subtypes *)

(** An event on a file whose subtype is none of [opened], [accessed],
    [modified], [moved], [deleted] (a [created] or a [closed] event, say)
    raises no alert: [on_any_event] leaves the store and the console as
    they are. *)
Theorem unclassified_events_are_ignored (ev : fs_event) (e : env) (w : world) :
  is_directory ev = false ->
  in_strings (event_type ev) classified_subtypes = false ->
  run e (on_any_event ev) w = (Ok tt, w).
Proof.
  intros Hd Ht. unfold classified_subtypes, in_strings in Ht. simpl in Ht.
  repeat (apply orb_false_iff in Ht; destruct Ht as [? Ht]).
  unfold run, on_any_event, bind, in_strings. rewrite Hd, get_system_info_run.
  unfold time_time. cbn [existsb].
  repeat match goal with H : String.eqb _ _ = false |- _ => rewrite H; clear H end.
  reflexivity.
Qed.

Lemma unclassified_events_are_ignored_witness :
  run (env_at 100) (on_any_event (mkEvent false "created" "/home/u/tokens/new.txt" ""))
      fresh_world
  = (Ok tt, fresh_world).
Proof.
  exact (unclassified_events_are_ignored
           (mkEvent false "created" "/home/u/tokens/new.txt" "") (env_at 100) fresh_world
           eq_refl eq_refl).
Defined.

Lemma on_typed_run (handle : event_details -> M unit) (subtype file_path : string)
    (ev : fs_event) (e : env) (w : world) :
  is_directory ev = false ->
  on_typed handle subtype file_path ev e O w
  = handle (mkDetails subtype file_path (clock_epoch e 0) (system_info_of e)) e 1%nat w.
Proof.
  intros Hd. unfold on_typed. rewrite Hd. cbn [negb].
  unfold bind, time_time. rewrite get_system_info_run. reflexivity.
Qed.

(** Each typed handler raises exactly one alert for an event on a file,
    whatever subtype the event itself carries: [on_opened] one HIGH alert,
    [on_modified], [on_moved] and [on_deleted] one MEDIUM alert whose
    message names the handler's subtype; [on_moved] reports the path as
    source and destination joined by an arrow. On a directory each of them
    does nothing. *)
Theorem typed_handlers_alert_once (subtype path dest : string) (e : env) (w : world) :
  let ev := mkEvent false subtype path dest in
  let info := system_info_of e in
  let now := clock_epoch e 0 in
  (exists w',
      run e (on_opened ev) w = (Ok tt, w')
      /\ lines_of AlertsLog w' =
           lines_of AlertsLog w
           ++ written e AlertsLog
                (alert_at e 1 "HIGH" access_message
                   (access_details e (mkDetails "opened" path now info))))
  /\ (exists w',
        run e (on_modified ev) w = (Ok tt, w')
        /\ lines_of AlertsLog w' =
             lines_of AlertsLog w
             ++ written e AlertsLog
                  (alert_at e 1 "MEDIUM" "Canary File Modified - modified"
                     (modification_details e (mkDetails "modified" path now info))))
  /\ (exists w',
        run e (on_moved ev) w = (Ok tt, w')
        /\ lines_of AlertsLog w' =
             lines_of AlertsLog w
             ++ written e AlertsLog
                  (alert_at e 1 "MEDIUM" "Canary File Modified - moved"
                     (modification_details e
                        (mkDetails "moved" (path ++ " -> " ++ dest) now info))))
  /\ (exists w',
        run e (on_deleted ev) w = (Ok tt, w')
        /\ lines_of AlertsLog w' =
             lines_of AlertsLog w
             ++ written e AlertsLog
                  (alert_at e 1 "MEDIUM" "Canary File Modified - deleted"
                     (modification_details e (mkDetails "deleted" path now info))))
  /\ (let dir := mkEvent true subtype path dest in
      run e (on_opened dir) w = (Ok tt, w) /\ run e (on_modified dir) w = (Ok tt, w)
      /\ run e (on_moved dir) w = (Ok tt, w) /\ run e (on_deleted dir) w = (Ok tt, w)).
Proof.
  cbv zeta.
  split; [| split; [| split; [| split]]].
  - destruct (handle_file_access_run
                (mkDetails "opened" path (clock_epoch e 0) (system_info_of e)) e 1 w)
      as (n' & w' & Hrun & Ha).
    exists w'. split; [| exact Ha]. apply (run_eq _ _ _ _ n').
    unfold on_opened. rewrite on_typed_run by reflexivity. exact Hrun.
  - destruct (handle_file_modification_run
                (mkDetails "modified" path (clock_epoch e 0) (system_info_of e)) e 1 w)
      as (n' & w' & Hrun & Ha).
    exists w'. split; [| exact Ha]. apply (run_eq _ _ _ _ n').
    unfold on_modified. rewrite on_typed_run by reflexivity. exact Hrun.
  - destruct (handle_file_modification_run
                (mkDetails "moved" (path ++ " -> " ++ dest) (clock_epoch e 0)
                           (system_info_of e)) e 1 w)
      as (n' & w' & Hrun & Ha).
    exists w'. split; [| exact Ha]. apply (run_eq _ _ _ _ n').
    unfold on_moved. rewrite on_typed_run by reflexivity. exact Hrun.
  - destruct (handle_file_modification_run
                (mkDetails "deleted" path (clock_epoch e 0) (system_info_of e)) e 1 w)
      as (n' & w' & Hrun & Ha).
    exists w'. split; [| exact Ha]. apply (run_eq _ _ _ _ n').
    unfold on_deleted. rewrite on_typed_run by reflexivity. exact Hrun.
  - repeat split.
Qed.

(** When the probe of the system fails, the event is not lost: the alert
    is raised all the same, with ["unknown"] for the host, the system and
    the user. *)
Theorem probe_failure_keeps_the_alert (path dest : string) (e : env) (w : world) (x : exn) :
  system_info_probe e = Raise x ->
  let info := mkSysinfo "unknown" "unknown" "unknown" "unknown" (Some (exn_str x)) in
  exists w',
    run e (on_any_event (mkEvent false "opened" path dest)) w = (Ok tt, w')
    /\ lines_of AlertsLog w' =
         lines_of AlertsLog w
         ++ written e AlertsLog
              (alert_at e 1 "HIGH" access_message
                 (access_details e (mkDetails "opened" path (clock_epoch e 0) info))).
Proof.
  intros Hp. cbv zeta.
  assert (Hi : system_info_of e
               = mkSysinfo "unknown" "unknown" "unknown" "unknown" (Some (exn_str x)))
    by (unfold system_info_of; rewrite Hp; reflexivity).
  rewrite <- Hi.
  destruct (handle_file_access_run
              (mkDetails "opened" path (clock_epoch e 0) (system_info_of e)) e 1 w)
    as (n' & w' & Hrun & Ha).
  exists w'. split; [| exact Ha]. apply (run_eq _ _ _ _ n').
  unfold on_any_event, bind. cbn [is_directory event_type src_path].
  rewrite get_system_info_run. unfold time_time. exact Hrun.
Qed.

Lemma probe_failure_keeps_the_alert_witness :
  exists w',
    run (env_probe_fails 100) (on_any_event (mkEvent false "opened" "/home/u/.ssh/id_rsa" ""))
        fresh_world
    = (Ok tt, w')
    /\ List.length (lines_of AlertsLog w') = 1%nat.
Proof.
  destruct (probe_failure_keeps_the_alert "/home/u/.ssh/id_rsa" "" (env_probe_fails 100)
              fresh_world (OSError "gethostname failed") eq_refl)
    as (w' & Hrun & Ha).
  exists w'. split; [exact Hrun |]. rewrite Ha. reflexivity.
Defined.

(** ** FileWatcher and NetworkMonitor over their lifetime *)

Lemma fw_start_new (self : file_watcher) (e : env) (w : world) :
  fw_observer self = ObserverNew ->
  exists w',
    run e (FileWatcher_start self) w
    = (Ok (mkFileWatcher (watch_directory self) ObserverStarted true), w')
    /\ lines_of ActivityLog w' =
         lines_of ActivityLog w
         ++ written e ActivityLog
              (info_at e 0 ("File watcher started monitoring: " ++ watch_directory self) None).
Proof.
  intros Ho. unfold run, FileWatcher_start, bind, observer_start. rewrite Ho. unfold ret.
  match goal with
  | |- context [log_info ?m ?d e O w] =>
      destruct (log_info_run m d e O w) as (w1 & Hrun & Hl & _)
  end.
  rewrite Hrun. unfold print. eexists. split; [reflexivity |]. exact Hl.
Qed.

Lemma fw_start_again (self : file_watcher) (e : env) (w : world) :
  fw_observer self <> ObserverNew ->
  run e (FileWatcher_start self) w
  = (Raise (RuntimeError "threads can only be started once"), w).
Proof.
  intros Ho. unfold run, FileWatcher_start, bind, observer_start.
  destruct (fw_observer self); [congruence | reflexivity | reflexivity].
Qed.

Lemma fw_stop_running (self : file_watcher) (e : env) (w : world) :
  fw_is_running self = true ->
  fw_observer self <> ObserverNew ->
  exists w',
    run e (FileWatcher_stop self) w
    = (Ok (mkFileWatcher (watch_directory self) ObserverStopped false), w')
    /\ lines_of ActivityLog w' =
         lines_of ActivityLog w
         ++ written e ActivityLog (info_at e 0 "File watcher stopped" None).
Proof.
  intros Hr Ho. unfold run, FileWatcher_stop, bind. rewrite Hr.
  destruct (log_info_run "File watcher stopped" None e O w) as (w1 & Hrun & Hl & _).
  destruct (fw_observer self); [congruence | |];
    unfold observer_stop, observer_join, ret; rewrite Hrun;
    eexists; (split; [reflexivity | exact Hl]).
Qed.

(** The life of a file watcher: [stop] before any [start] does nothing;
    [start] sets it running and alive; [stop] ends that; and a watcher that
    has been started cannot be started again, running or stopped: [start]
    raises [RuntimeError] and changes nothing. The activity log holds one
    record for the start and one for the stop. *)
Theorem file_watcher_lifecycle (dir : string) (e1 e2 e3 : env) (w : world) :
  let new := FileWatcher_init dir in
  run e1 (FileWatcher_stop new) w = (Ok new, w)
  /\ exists started w1 stopped w2,
       run e1 (FileWatcher_start new) w = (Ok started, w1)
       /\ fw_is_running started = true /\ FileWatcher_is_alive started = true
       /\ run e2 (FileWatcher_stop started) w1 = (Ok stopped, w2)
       /\ fw_is_running stopped = false /\ FileWatcher_is_alive stopped = false
       /\ run e3 (FileWatcher_start started) w1
          = (Raise (RuntimeError "threads can only be started once"), w1)
       /\ run e3 (FileWatcher_start stopped) w2
          = (Raise (RuntimeError "threads can only be started once"), w2)
       /\ lines_of ActivityLog w2 =
            lines_of ActivityLog w
            ++ written e1 ActivityLog
                 (info_at e1 0 ("File watcher started monitoring: " ++ dir) None)
            ++ written e2 ActivityLog (info_at e2 0 "File watcher stopped" None).
Proof.
  cbv zeta. split; [reflexivity |].
  destruct (fw_start_new (FileWatcher_init dir) e1 w eq_refl) as (w1 & Hstart & Hl1).
  cbn [watch_directory FileWatcher_init] in Hstart, Hl1.
  destruct (fw_stop_running (mkFileWatcher dir ObserverStarted true) e2 w1 eq_refl)
    as (w2 & Hstop & Hl2); [discriminate |].
  cbn [watch_directory] in Hstop.
  do 4 eexists. split; [exact Hstart |].
  split; [reflexivity |]. split; [reflexivity |].
  split; [exact Hstop |].
  split; [reflexivity |]. split; [reflexivity |].
  split; [apply fw_start_again; discriminate |].
  split; [apply fw_start_again; discriminate |].
  rewrite Hl2, Hl1, <- app_assoc. reflexivity.
Qed.

Lemma fw_call_consistent (c : detector_call) (e : env) (self : file_watcher) (w : world) :
  fw_consistent self = true -> fw_consistent (fst (fw_call c e self w)) = true.
Proof.
  intros Hc. unfold fw_call. destruct c.
  - destruct (fw_observer self) eqn:Eo.
    + destruct (fw_start_new self e w Eo) as (w' & Hrun & _). rewrite Hrun. reflexivity.
    + rewrite fw_start_again by congruence. exact Hc.
    + rewrite fw_start_again by congruence. exact Hc.
  - destruct (fw_is_running self) eqn:Er.
    + assert (Ho : fw_observer self <> ObserverNew).
      { unfold fw_consistent in Hc. rewrite Er in Hc.
        destruct (fw_observer self); [discriminate | discriminate | discriminate]. }
      destruct (fw_stop_running self e w Er Ho) as (w' & Hrun & _).
      rewrite Hrun. reflexivity.
    + unfold run, FileWatcher_stop. rewrite Er. exact Hc.
Qed.

(** Whatever [start] and [stop] calls a watcher has received since it was
    built, its flag agrees with its observer, and so the next [stop]
    returns normally and leaves it not running. *)
Theorem file_watcher_stop_always_safe (dir : string) (cs : list (env * detector_call))
    (e : env) (w : world) :
  let self := fst (fw_calls cs (FileWatcher_init dir) w) in
  let w1 := snd (fw_calls cs (FileWatcher_init dir) w) in
  fw_consistent self = true
  /\ exists self' w',
       run e (FileWatcher_stop self) w1 = (Ok self', w')
       /\ fw_is_running self' = false.
Proof.
  cbv zeta.
  assert (Hgen : forall cs self w,
             fw_consistent self = true ->
             fw_consistent (fst (fw_calls cs self w)) = true).
  { clear. induction cs as [| [e c] cs IH]; intros self w Hc; [exact Hc |].
    simpl fw_calls. pose proof (fw_call_consistent c e self w Hc) as H.
    destruct (fw_call c e self w) as [self' w']. apply IH, H. }
  pose proof (Hgen cs (FileWatcher_init dir) w eq_refl) as Hc.
  destruct (fw_calls cs (FileWatcher_init dir) w) as [self w1]. cbn [fst snd] in *.
  split; [exact Hc |].
  destruct (fw_is_running self) eqn:Er.
  - assert (Ho : fw_observer self <> ObserverNew).
    { unfold fw_consistent in Hc. rewrite Er in Hc.
      destruct (fw_observer self); [discriminate | discriminate | discriminate]. }
    destruct (fw_stop_running self e w1 Er Ho) as (w' & Hrun & _).
    do 2 eexists. split; [exact Hrun | reflexivity].
  - exists self, w1. split; [| exact Er].
    unfold run, FileWatcher_stop. rewrite Er. reflexivity.
Qed.





(** ** The accept loop as a whole *)

Lemma handle_connection_ok (host : string) (port : Z) (send_exc close_exc : option exn)
    (e : env) (w : world) :
  exists n' w', handle_connection host port send_exc close_exc e O w = (Ok tt, n', w').
Proof.
  destruct (handle_connection_run host port send_exc close_exc e w) as (n' & w' & Hrun & _).
  exists n', w'. exact Hrun.
Qed.

Lemma accept_iteration_ok (t : turn) (e : env) (w : world) :
  exists c w', run e (accept_iteration t) w = (Ok c, w').
Proof.
  unfold run, accept_iteration, try_except, bind.
  destruct (turn_accept t) as [host port s c | x].
  - destruct (handle_connection_ok host port s c e w) as (n' & w' & Hrun).
    rewrite Hrun. do 2 eexists. reflexivity.
  - unfold raise.
    destruct x; try (do 2 eexists; reflexivity);
      (destruct (turn_is_running_on_error t);
       [ match goal with
         | |- context [log_error ?m ?d e O w] =>
             destruct (log_error_run m d e O w) as (w' & Hrun & _)
         end;
         rewrite Hrun; do 2 eexists; reflexivity
       | do 2 eexists; reflexivity ]).
Qed.

(** No exception leaves the accept loop: whatever [accept], [send],
    [close], the notification and the log writes do, the loop is still
    running or has ended by its own [break] or by the cleared flag. *)
Theorem accept_loop_never_unwinds (turns : list turn) (w : world) :
  is_unwound (fst (accept_loop turns w)) = false.
Proof.
  revert w. induction turns as [| t turns IH]; intros w; [reflexivity |].
  simpl accept_loop. destruct (turn_is_running t); [| reflexivity].
  destruct (accept_iteration_ok t (turn_env t) w) as (c & w' & Hrun).
  rewrite Hrun. destruct c; [apply IH | reflexivity].
Qed.




Lemma accept_loop_exit_closes (turns : list turn) (w : world) :
  fst (accept_loop turns w) = Exited ->
  exists trace, net (snd (accept_loop turns w)) = trace ++ [NetCloseListener].
Proof.
  revert w. induction turns as [| t turns IH]; intros w; [discriminate |].
  simpl accept_loop. destruct (turn_is_running t).
  - destruct (run (turn_env t) (accept_iteration t) w) as [[[] | x] w'].
    + apply IH.
    + intros _. exists (net w'). reflexivity.
    + discriminate.
  - intros _. exists (net w). reflexivity.
Qed.

(** Once a turn finds the flag cleared the loop has ended, and the last
    thing it did was to close the listening socket: whatever would arrive
    later is not served and changes nothing. *)
Theorem accept_loop_stops_at_cleared_flag (before rest : list turn) (t : turn) (w : world) :
  turn_is_running t = false ->
  let outcome := accept_loop (before ++ t :: rest) w in
  outcome = accept_loop (before ++ [t]) w
  /\ fst outcome = Exited
  /\ exists trace, net (snd outcome) = trace ++ [NetCloseListener].
Proof.
  intros Ht. cbv zeta.
  assert (H : accept_loop (before ++ t :: rest) w = accept_loop (before ++ [t]) w
              /\ fst (accept_loop (before ++ t :: rest) w) = Exited).
  { revert w. induction before as [| b before IH]; intros w.
    - simpl. rewrite Ht. split; reflexivity.
    - simpl app. simpl accept_loop. destruct (turn_is_running b); [| split; reflexivity].
      destruct (accept_iteration_ok b (turn_env b) w) as (c & w' & Hrun).
      rewrite Hrun. destruct c; [apply IH | split; reflexivity]. }
  destruct H as [Heq Hexit].
  split; [exact Heq |]. split; [exact Hexit |].
  apply accept_loop_exit_closes, Hexit.
Qed.

Lemma accept_loop_stops_at_cleared_flag_witness :
  fst (accept_loop
         [mkTurn true (env_at 100) (Accepted "10.0.0.7" 51000 None None) true;
          mkTurn false (env_at 101) (AcceptRaises SocketTimeout) false;
          mkTurn true (env_at 102) (Accepted "10.0.0.8" 51001 None None) true]
         fresh_world)
  = Exited
  /\ net (snd (accept_loop
                [mkTurn true (env_at 100) (Accepted "10.0.0.7" 51000 None None) true;
                 mkTurn false (env_at 101) (AcceptRaises SocketTimeout) false;
                 mkTurn true (env_at 102) (Accepted "10.0.0.8" 51001 None None) true]
                fresh_world))
     = [NetSend "10.0.0.7" 51000 banner; NetSleep 2; NetClose "10.0.0.7" 51000;
        NetCloseListener].
Proof.
  split; [| reflexivity].
  exact (proj1 (proj2 (accept_loop_stops_at_cleared_flag
                  [mkTurn true (env_at 100) (Accepted "10.0.0.7" 51000 None None) true]
                  [mkTurn true (env_at 102) (Accepted "10.0.0.8" 51001 None None) true]
                  (mkTurn false (env_at 101) (AcceptRaises SocketTimeout) false)
                  fresh_world eq_refl))).
Defined.

(** ** ConfigManager: dotted paths *)

Lemma split_on_nonempty (sep : ascii) (s : string) : split_on sep s <> [].
Proof.
  destruct s as [| c s]; simpl; [discriminate |].
  destruct (Ascii.eqb c sep); [discriminate |].
  destruct (split_on sep s); discriminate.
Qed.

Lemma split_on_app (p k : string) :
  split_on "." (p ++ "." ++ k) = split_on "." p ++ split_on "." k.
Proof.
  induction p as [| c p IH]; [reflexivity |].
  simpl. destruct (Ascii.eqb c "."); simpl in IH; rewrite IH; [reflexivity |].
  pose proof (split_on_nonempty "." p) as Hne.
  destruct (split_on "." p); [congruence | reflexivity].
Qed.






(** The directory of the configuration file cannot be created: [set] raises,
    and the setting is changed in memory all the same. *)
Example config_set_mkdir_failure :
  let outcome :=
    ConfigManager_set (Some (OSError "Permission denied: config")) None default_manager
      "logging.log_level" (JStr "DEBUG") in
  fst outcome = Raise (OSError "Permission denied: config")
  /\ ConfigManager_get (snd outcome) "logging.log_level" JNull = JStr "DEBUG"
  /\ cm_file (snd outcome) = Some default_config.
Proof. repeat split. Qed.

Lemma get_walk_blocked (ks1 : list string) (k2 : string) (r2 : list string)
    (config v default : json) :
  get_walk ks1 config (JDict []) = v ->
  is_dict v = false ->
  get_walk (ks1 ++ k2 :: r2) config default = default.
Proof.
  revert config. induction ks1 as [| k ks1 IH]; intros config Hg Hv.
  - simpl in Hg. subst v. simpl. destruct config; try reflexivity. discriminate Hv.
  - simpl in *. destruct config as [| | | | | d]; try (subst v; discriminate Hv).
    destruct (has_key d k); [apply IH; assumption | subst v; discriminate Hv].
Qed.

Lemma set_walk_blocked (ks1 : list string) (k2 : string) (r2 : list string)
    (config v value : json) :
  get_walk ks1 config (JDict []) = v ->
  is_dict v = false ->
  match ks1 ++ k2 :: r2 with
  | [] => True
  | key :: rest =>
      set_walk key rest value config
      = Raise (TypeError "the value on the path is not a mapping")
  end.
Proof.
  revert config. induction ks1 as [| k ks1 IH]; intros config Hg Hv.
  - simpl in Hg. subst v. simpl.
    destruct config; try discriminate Hv; destruct r2; reflexivity.
  - simpl in Hg. destruct config as [| | | | | d]; try (subst v; discriminate Hv).
    destruct (has_key d k) eqn:Ek; [| subst v; discriminate Hv].
    specialize (IH _ Hg Hv).
    change ((k :: ks1) ++ k2 :: r2) with (k :: (ks1 ++ k2 :: r2)).
    destruct (ks1 ++ k2 :: r2) as [| next rest] eqn:El.
    + destruct ks1; discriminate El.
    + simpl. rewrite Ek, IH. reflexivity.
Qed.

(** Where a dotted path leads to a setting that is not a mapping, a longer
    path through it is answered differently by the two operations: [get]
    returns the default, [set] raises [TypeError] and changes nothing. *)
Theorem config_scalar_blocks_subkeys (open_exc : option exn) (self : config_manager)
    (path key : string) (v value default : json) :
  ConfigManager_get self path (JDict []) = v ->
  is_dict v = false ->
  ConfigManager_get self (path ++ "." ++ key) default = default
  /\ ConfigManager_set None open_exc self (path ++ "." ++ key) value
     = (Raise (TypeError "the value on the path is not a mapping"), self).
Proof.
  unfold ConfigManager_get, ConfigManager_set. intros Hg Hv.
  rewrite split_on_app.
  pose proof (split_on_nonempty "." key) as Hne.
  destruct (split_on "." key) as [| k2 r2]; [congruence |].
  split; [apply (get_walk_blocked _ _ _ _ v); assumption |].
  pose proof (set_walk_blocked (split_on "." path) k2 r2 (cm_config self) v value Hg Hv) as Hs.
  destruct (split_on "." path ++ k2 :: r2) as [| k r] eqn:El.
  - destruct (split_on "." path); discriminate El.
  - rewrite Hs. reflexivity.
Qed.

Lemma config_scalar_blocks_subkeys_witness :
  ConfigManager_get default_manager "monitoring.ssh_honeypot_port.protocol" (JStr "tcp")
  = JStr "tcp"
  /\ ConfigManager_set None None default_manager "monitoring.ssh_honeypot_port.protocol"
       (JStr "tcp")
     = (Raise (TypeError "the value on the path is not a mapping"), default_manager).
Proof.
  exact (config_scalar_blocks_subkeys None default_manager "monitoring.ssh_honeypot_port"
           "protocol" (JNum 2222) (JStr "tcp") (JStr "tcp") eq_refl eq_refl).
Defined.

(** ** The supervisor *)



